(** * IntelliPolicy chat module: the streaming query session

    A shallow embedding of [ChatModule] of
    [intelli-policy/src/App.jsx] (lines 415-866): the typewriter helpers
    [clearTyping] and [typeMessage], the submit handler [handleSend] with
    the three callbacks it registers ([eventSource.onmessage],
    [eventSource.onerror] and the continuation of the fallback [fetch]),
    and the text of the assistant reply.

    React state hooks and refs of the component are the fields of [Host];
    the [let] variables of one call of [handleSend] are the fields of
    [Stream]; every callback is a function on these.  What the browser
    does around the handlers (an [EventSource] dispatches nothing once it
    is closed, a promise settles once) is kept apart in [step]. *)

From Stdlib Require Import ZArith NArith Bool Lia Floats Ascii String DecimalString.
From stdpp Require Import base list strings.

Local Open Scope string_scope.
Local Open Scope Z_scope.
#[local] Set Warnings "-inexact-float".

(** ** JavaScript strings

    A text of the program is a [string] here, written in UTF-8 like the
    literals of the source.  ['\n'] is the character of code 10. *)

Definition nl : string := String (ascii_of_nat 10) "".

(** [c1 + ... + cn]. *)
Definition cat (l : list string) : string := foldr String.append "" l.

(** The program counts and indexes a string by UTF-16 code units
    ([length], [charAt]).  A code point of the Basic Multilingual Plane is
    one unit, written in one to three bytes; a code point beyond it is
    written in four bytes and is two units, its high and its low
    surrogate.  A surrogate on its own, which [charAt] can return, is
    written in the three bytes of its value ([three_bytes]); the two
    surrogates of a code point, put together again, are the same string
    of the program as its four bytes.  [supplementary] is the code point
    of a four-byte sequence less 0x10000. *)
Definition three_bytes (u : N) : string :=
  String (ascii_of_N (224 + u / 4096))
    (String (ascii_of_N (128 + (u / 64) mod 64))
       (String (ascii_of_N (128 + u mod 64)) "")).

Definition supplementary (a b c d : ascii) : N :=
  ((N_of_ascii a - 240) * 262144 + (N_of_ascii b - 128) * 4096
   + (N_of_ascii c - 128) * 64 + (N_of_ascii d - 128) - 65536)%N.

(** The code units of a text, in order, each as a string of its own; a
    sequence that is cut short at the end of the text is left as it is. *)
Fixpoint code_units (s : string) : list string :=
  match s with
  | EmptyString => []
  | String a s1 =>
    let n := N_of_ascii a in
    if (n <? 192)%N then String a "" :: code_units s1
    else
      match s1 with
      | String b s2 =>
        if (n <? 224)%N then String a (String b "") :: code_units s2
        else
          match s2 with
          | String c s3 =>
            if (n <? 240)%N then String a (String b (String c "")) :: code_units s3
            else
              match s3 with
              | String d s4 =>
                let v := supplementary a b c d in
                three_bytes (55296 + v / 1024)%N
                  :: three_bytes (56320 + v mod 1024)%N :: code_units s4
              | EmptyString => [s]
              end
          | EmptyString => [s]
          end
      | EmptyString => [s]
      end
  end.

(** A text of the Basic Multilingual Plane: no four-byte sequence. *)
Definition bmp (s : string) : bool :=
  forallb (fun c => (N_of_ascii c <? 240)%N) (list_ascii_of_string s).

(** [!text.trim()]: the text consists of white space and line terminators
    only (ECMAScript WhiteSpace and LineTerminator code points, read in
    their UTF-8 encoding). *)
Definition unit_is (c : ascii) (n : nat) : bool := (nat_of_ascii c =? n)%nat.

Definition ascii_space (c : ascii) : bool :=
  let n := nat_of_ascii c in ((9 <=? n)%nat && (n <=? 13)%nat) || (n =? 32)%nat.

Fixpoint blank (s : string) : bool :=
  match s with
  | EmptyString => true
  | String c s1 =>
    if ascii_space c then blank s1
    else if unit_is c 194 then                   (* U+00A0 *)
      match s1 with
      | String d s2 => unit_is d 160 && blank s2
      | _ => false
      end
    else if unit_is c 225 then                   (* U+1680 *)
      match s1 with
      | String d (String e s3) => unit_is d 154 && unit_is e 128 && blank s3
      | _ => false
      end
    else if unit_is c 226 then    (* U+2000..200A, 2028, 2029, 202F, 205F *)
      match s1 with
      | String d (String e s3) =>
        let n := nat_of_ascii e in
        ((unit_is d 128 &&
          (((128 <=? n)%nat && (n <=? 138)%nat)
           || (n =? 168)%nat || (n =? 169)%nat || (n =? 175)%nat))
         || (unit_is d 129 && (n =? 159)%nat))
        && blank s3
      | _ => false
      end
    else if unit_is c 227 then                   (* U+3000 *)
      match s1 with
      | String d (String e s3) => unit_is d 128 && unit_is e 128 && blank s3
      | _ => false
      end
    else if unit_is c 239 then                   (* U+FEFF *)
      match s1 with
      | String d (String e s3) => unit_is d 187 && unit_is e 191 && blank s3
      | _ => false
      end
    else false
  end.

(** [message.charAt(i)]: the code unit at index [i], the empty string out
    of range. *)
Definition charAt (message : string) (i : nat) : string :=
  default "" (code_units message !! i).


(** ** JavaScript numbers

    A number of a payload is a binary64 float.  A field that may be absent
    or [null] is an [option]. *)

Definition number : Type := float.

(** [(x || 0)]: [undefined], [null], [0], [-0] and [NaN] are falsy. *)
Definition or0 (x : option number) : number :=
  match x with
  | Some v => if (PrimFloat.eqb v 0 || PrimFloat.is_nan v)%bool then 0%float else v
  | None => 0%float
  end.

(** A value that [(x || 0)] replaces by [0]. *)
Definition missing (x : option number) : bool :=
  match x with
  | Some v => PrimFloat.eqb v 0 || PrimFloat.is_nan v
  | None => true
  end.

(** The value of [Math.round]: an integer, or one of the values the
    function leaves as they are. *)
Inductive rounded : Type :=
| RInt (n : Z)
| RInfinity (negative : bool)
| RNaN.

(** [n / d] rounded to the nearest integer, a tie going up; [d] positive. *)
Definition round_half_up (n d : Z) : Z := (2 * n + d) / (2 * d).

(** [Math.round(x)], on the exact value [m * 2^e] of the float. *)
Definition Math_round (x : number) : rounded :=
  match Prim2SF x with
  | S754_zero _ => RInt 0
  | S754_infinity s => RInfinity s
  | S754_nan => RNaN
  | S754_finite s m e =>
    let n := if s then Z.neg m else Z.pos m in
    if 0 <=? e then RInt (n * 2 ^ e) else RInt (round_half_up n (2 ^ (- e)))
  end.

Definition digits (n : Z) : string := NilZero.string_of_int (Z.to_int n).

(** [`${n / 10}`] for an integer [n]: the decimal of [n / 10], which has at
    most one digit after the point.  (Exact for the numbers below 10^16;
    a confidence or similarity in [0, 1] gives [n] at most 1000.) *)
Definition tenths (n : Z) : string :=
  (if n <? 0 then "-" else "") ++
  digits (Z.abs n / 10) ++
  (if Z.abs n mod 10 =? 0 then "" else "." ++ digits (Z.abs n mod 10)).

(** [`${Math.round((x || 0) * 1000) / 10}`]. *)
Definition percent (x : option number) : string :=
  match Math_round (or0 x * 1000)%float with
  | RInt n => tenths n
  | RInfinity false => "Infinity"
  | RInfinity true => "-Infinity"
  | RNaN => "NaN"
  end.

(** ** Payloads *)

Record Source : Type := mkSource {
  source : string;
  similarity : option number
}.

(** [sources] is [None] when the field is absent or not an array; an
    [answer] or a [source] that is absent is the text it prints as,
    [undefined]. *)
Record ResultPayload : Type := mkResult {
  answer : string;
  confidence : option number;
  sources : option (list Source)
}.

(** [join] of [Array.prototype.join]. *)
Fixpoint join (sep : string) (l : list string) : string :=
  match l with
  | [] => ""
  | [x] => x
  | x :: rest => x ++ sep ++ join sep rest
  end.

(** [(s, i) => `${i + 1}. ${s.source} (相关度: ${...}%)`]. *)
Definition source_line (i : nat) (s : Source) : string :=
  digits (Z.of_nat i + 1) ++ ". " ++ source s ++
  " (相关度: " ++ percent (similarity s) ++ "%)".

(** [sourcesText] of lines 639-641 and 677-679. *)
Definition sourcesText (r : ResultPayload) : string :=
  match sources r with
  | Some ((_ :: _) as l) =>
    nl ++ nl ++ "参考来源:" ++ nl ++ join nl (imap source_line (take 2 l))
  | _ => ""
  end.

(** [reply] of lines 642 and 680: the two paths build it by the same
    expression. *)
Definition reply (r : ResultPayload) : string :=
  answer r ++ nl ++ nl ++ "置信度: " ++ percent (confidence r) ++ "%" ++
  sourcesText r.

(** ** The component state

    [Message]: an entry of the transcript, [{ id, type, text }]. *)

Inductive Role : Type := user | bot.

Record Message : Type := mkMessage {
  id : Z;
  type : Role;
  text : string
}.

(** [userLocation]: [{ province, city, district }], with the coordinates
    when the browser gave them. *)
Record Location : Type := mkLocation {
  province : option string;
  city : option string;
  district : option string;
  coords : option (number * number)
}.

(** The state hooks ([messages], [input], [isThinking], [userLocation],
    [typingMessage], [isTyping]) and the refs ([typingIndex],
    [typingInterval]) of [ChatModule].  A live interval is the callback it
    runs, which is determined by the [message] it has captured. *)
Record Host : Type := mkHost {
  messages : list Message;
  input : string;
  isThinking : bool;
  userLocation : option Location;
  typingMessage : string;
  isTyping : bool;
  typingIndex : nat;
  typingInterval : option string
}.

Definition setMessages (f : list Message -> list Message) (h : Host) : Host :=
  mkHost (f (messages h)) (input h) (isThinking h) (userLocation h)
         (typingMessage h) (isTyping h) (typingIndex h) (typingInterval h).

Definition setInput (v : string) (h : Host) : Host :=
  mkHost (messages h) v (isThinking h) (userLocation h)
         (typingMessage h) (isTyping h) (typingIndex h) (typingInterval h).

Definition setIsThinking (v : bool) (h : Host) : Host :=
  mkHost (messages h) (input h) v (userLocation h)
         (typingMessage h) (isTyping h) (typingIndex h) (typingInterval h).

Definition setUserLocation (v : option Location) (h : Host) : Host :=
  mkHost (messages h) (input h) (isThinking h) v
         (typingMessage h) (isTyping h) (typingIndex h) (typingInterval h).

Definition setTypingMessage (v : string) (h : Host) : Host :=
  mkHost (messages h) (input h) (isThinking h) (userLocation h)
         v (isTyping h) (typingIndex h) (typingInterval h).

Definition setIsTyping (v : bool) (h : Host) : Host :=
  mkHost (messages h) (input h) (isThinking h) (userLocation h)
         (typingMessage h) v (typingIndex h) (typingInterval h).

Definition set_typingIndex (v : nat) (h : Host) : Host :=
  mkHost (messages h) (input h) (isThinking h) (userLocation h)
         (typingMessage h) (isTyping h) v (typingInterval h).

Definition set_typingInterval (v : option string) (h : Host) : Host :=
  mkHost (messages h) (input h) (isThinking h) (userLocation h)
         (typingMessage h) (isTyping h) (typingIndex h) v.

(** Statements of a handler, in the order of the source. *)
Notation "h |> f" := (f h) (at level 45, left associativity, only parsing).

(** [prev => [...prev, m]]. *)
Definition push (m : Message) (prev : list Message) : list Message :=
  (prev ++ [m])%list.

(** ** The typewriter (lines 465-497) *)

Definition clearTyping (h : Host) : Host :=
  h |> set_typingInterval None
    |> setIsTyping false
    |> setTypingMessage ""
    |> set_typingIndex 0.

Definition typeMessage (message : string) (h : Host) : Host :=
  h |> clearTyping
    |> setIsTyping true
    |> setTypingMessage ""
    |> set_typingIndex 0
    |> set_typingInterval (Some message).

(** The callback of the interval (lines 489-496).  While units remain, the
    source calls [setTypingMessage] with an updater,
    [prev => prev + message.charAt(typingIndex.current)], and then
    increments the ref.  [typing_updater] is a run of that updater: it
    reads the buffer and the ref as they are when it runs. *)
Definition typing_updater (message : string) (h : Host) : Host :=
  setTypingMessage (typingMessage h ++ charAt message (typingIndex h)) h.

Definition increment_typingIndex (h : Host) : Host :=
  set_typingIndex (S (typingIndex h)) h.

(** React runs an updater given to a state setter when it computes the next
    state: during the next render, hence after the callback has returned
    and the ref has been incremented (the contract of [useState]: updaters
    are queued, and are to be pure); or already inside the call of the
    setter, when the component has no update pending and the state is
    computed eagerly, or when the root renders synchronously.  [eager]
    tells which of the two happens in a period. *)
Definition interval_callback (eager : bool) (message : string) (h : Host) : Host :=
  if (typingIndex h <? length (code_units message))%nat then
    if eager
    then h |> typing_updater message |> increment_typingIndex
    else h |> increment_typingIndex |> typing_updater message
  else clearTyping h.

(** One period (30 ms) of the timer: the live interval, if any, fires. *)
Definition tick (eager : bool) (h : Host) : Host :=
  match typingInterval h with
  | Some message => interval_callback eager message h
  | None => h
  end.

(** ** One query (lines 594-692)

    [StreamEvent]: [JSON.parse(event.data)] by its [type].  [Complete] is
    a [complete] frame with a [result] that can be rendered.
    [CompleteNoResult] is one without: [result] is absent or [null], or
    one of its first two sources is, and the handler throws a [TypeError]
    at line 638 or 640, after lines 634-636 have run and before
    [setMessages] and [setIsThinking].  [Other] is a frame of another
    type, for which the [switch] has no case, or one whose data does not
    parse: the handler stops after setting [hasReceivedData]. *)
Inductive StreamEvent : Type :=
| Chunk (content : string)
| Complete (result : ResultPayload)
| CompleteNoResult
| ErrorEvent (message : string)
| Other.

(** The promise of the fallback [fetch]. *)
Inductive Fetch : Type := NoFetch | Pending | Settled.

(** What one call of [handleSend] closes over: its parameter [text], the
    [userLocation] of the render, the event source (only whether it is
    closed matters), the three [let] variables and the fallback request. *)
Record Stream : Type := mkStream {
  question : string;
  location : option Location;
  closed : bool;
  hasReceivedData : bool;
  isCompleted : bool;
  accumulatedText : string;
  fallback : Fetch
}.

(** Requests sent to the backend: [new EventSource(streamUrl)] with the
    parameters of the URL, and the [POST] of [/api/query] with its body. *)
Inductive Request : Type :=
| StreamQuery (question : string) (city province district : option string)
| PostQuery (question : string) (return_sources : bool) (location : option Location).

(** A string that is present and not empty. *)
Definition truthy (x : option string) : option string :=
  match x with
  | Some "" => None
  | _ => x
  end.

(** [streamUrl] of lines 604-613. *)
Definition streamUrl (text : string) (loc : option Location) : Request :=
  match loc with
  | Some l =>
    match truthy (city l) with
    | Some c => StreamQuery text (Some c) (truthy (province l)) (truthy (district l))
    | None => StreamQuery text None None None
    end
  | None => StreamQuery text None None None
  end.

Definition open_stream (text : string) (loc : option Location) : Stream :=
  mkStream text loc false false false "" NoFetch.

Definition set_closed (s : Stream) : Stream :=
  mkStream (question s) (location s) true (hasReceivedData s) (isCompleted s)
           (accumulatedText s) (fallback s).

Definition set_hasReceivedData (s : Stream) : Stream :=
  mkStream (question s) (location s) (closed s) true (isCompleted s)
           (accumulatedText s) (fallback s).

Definition set_isCompleted (s : Stream) : Stream :=
  mkStream (question s) (location s) (closed s) (hasReceivedData s) true
           (accumulatedText s) (fallback s).

Definition set_accumulatedText (v : string) (s : Stream) : Stream :=
  mkStream (question s) (location s) (closed s) (hasReceivedData s) (isCompleted s)
           v (fallback s).

Definition set_fallback (v : Fetch) (s : Stream) : Stream :=
  mkStream (question s) (location s) (closed s) (hasReceivedData s) (isCompleted s)
           (accumulatedText s) v.

(** [eventSource.onmessage] (lines 621-655).  [now] is [Date.now()] where
    the message is built. *)
Definition onmessage (now : Z) (data : StreamEvent) (hs : Host * Stream)
  : Host * Stream :=
  let h := hs.1 in
  let s := set_hasReceivedData hs.2 in
  match data with
  | Chunk content =>
    let acc := accumulatedText s ++ content in
    (h |> setTypingMessage acc |> setIsTyping true, set_accumulatedText acc s)
  | Complete result =>
    (h |> clearTyping
       |> setMessages (push (mkMessage (now + 1) bot (reply result)))
       |> setIsThinking false,
     set_closed (set_isCompleted s))
  | CompleteNoResult =>
    (h |> clearTyping, set_closed (set_isCompleted s))
  | ErrorEvent message =>
    (h |> clearTyping
       |> setMessages (push (mkMessage (now + 1) bot ("错误: " ++ message)))
       |> setIsThinking false,
     set_closed (set_isCompleted s))
  | Other => (h, s)
  end.

(** [eventSource.onerror] (lines 657-691), up to the call of [fetch]: the
    new state and the request sent, if one is. *)
Definition onerror (hs : Host * Stream) : Host * Stream * option Request :=
  let h := hs.1 in
  let s := set_closed hs.2 in
  if negb (hasReceivedData s) && negb (isCompleted s) then
    (clearTyping h, set_fallback Pending s,
     Some (PostQuery (question s) true (location s)))
  else if negb (isCompleted s) then
    (setIsThinking false h, s, None)
  else (h, s, None).

(** The text appended when the fallback fails (line 684). *)
Definition unavailable : string := "抱歉，服务暂时不可用，请稍后重试。".

(** The continuation of the fallback [fetch] (lines 673-686): [then] on a
    response that is [ok] and parses to [data], [catch] otherwise, and
    [finally]. *)
Definition onsettled (now : Z) (response : option ResultPayload) (h : Host) : Host :=
  h |> setMessages (push (mkMessage (now + 1) bot
                            match response with
                            | Some data => reply data
                            | None => unavailable
                            end))
    |> setIsThinking false.

(** ** The page

    The component, the closures of the calls of [handleSend] so far (in the
    order of the calls) and the requests sent so far. *)
Record World : Type := mkWorld {
  host : Host;
  streams : list Stream;
  network : list Request
}.

(** [handleSend(text)] (lines 594-619); the callbacks it registers are
    [onmessage] and [onerror] above.  [now] is [Date.now()]. *)
Definition handleSend (now : Z) (text : string) (w : World) : World :=
  if blank text then w
  else
    mkWorld
      (host w |> setMessages (push (mkMessage now user text))
              |> setInput ""
              |> setIsThinking true)
      (streams w ++ [open_stream text (userLocation (host w))])
      (network w ++ [streamUrl text (userLocation (host w))]).

(** What happens on the page.  [Submit now arg] is a call of [handleSend]:
    with a quick prompt as argument, or with none from the send button and
    the Enter key (the default [text = input]).  [Typed] is [setInput] (the
    text area, the speech recogniser), [Located] is [setUserLocation].
    [Frame], [Failure] and [Response] are the three callbacks of query [q],
    the [q]-th call of [handleSend]; [Timer] is a period of the interval. *)
Inductive Event : Type :=
| Submit (now : Z) (arg : option string)
| Typed (value : string)
| Located (l : Location)
| Frame (q : nat) (now : Z) (data : StreamEvent)
| Failure (q : nat)
| Response (q : nat) (now : Z) (response : option ResultPayload)
| Timer (eager : bool).

(** The query whose callback an event runs. *)
Definition owner (e : Event) : option nat :=
  match e with
  | Frame q _ _ | Failure q | Response q _ _ => Some q
  | _ => None
  end.

Definition with_stream (q : nat) (hs : Host * Stream) (w : World) : World :=
  mkWorld hs.1 (<[q := hs.2]> (streams w)) (network w).

(** One event.  The browser runs a callback of an event source only while
    the source is not closed, and the continuation of a [fetch] once, when
    the request is pending. *)
Definition step (w : World) (e : Event) : World :=
  match e with
  | Submit now arg => handleSend now (default (input (host w)) arg) w
  | Typed value => mkWorld (setInput value (host w)) (streams w) (network w)
  | Located l => mkWorld (setUserLocation (Some l) (host w)) (streams w) (network w)
  | Frame q now data =>
    match streams w !! q with
    | Some s =>
      if closed s then w else with_stream q (onmessage now data (host w, s)) w
    | None => w
    end
  | Failure q =>
    match streams w !! q with
    | Some s =>
      if closed s then w
      else
        let r := onerror (host w, s) in
        mkWorld r.1.1 (<[q := r.1.2]> (streams w))
                (network w ++ option_list r.2)
    | None => w
    end
  | Response q now response =>
    match streams w !! q with
    | Some s =>
      match fallback s with
      | Pending =>
        with_stream q (onsettled now response (host w), set_fallback Settled s) w
      | _ => w
      end
    | None => w
    end
  | Timer eager => mkWorld (tick eager (host w)) (streams w) (network w)
  end.

Definition run (w : World) (es : list Event) : World := foldl step w es.

(** The page as it is mounted (lines 416-421, 466-469). *)
Definition greeting : string :=
  "您好！我是您的智能政策顾问 **“智策通”**。" ++ nl ++ nl ++
  "我已实时连接至 **国家政务服务平台** 及 **济南市大数据局** 政策库。" ++ nl ++
  "您可以问我：" ++ nl ++ nl ++
  "🔹 **想换台空调，一级能效能补多少钱？**" ++ nl ++
  "🔹 **名下旧车报废更新的流程是什么？**" ++ nl ++
  "🔹 **我有1万元预算，怎么买家电组合最划算？**".

Definition mounted : World :=
  mkWorld (mkHost [mkMessage 1 bot greeting] "" false None "" false 0 None) [] [].

(** The first quick prompt (line 806). *)
Definition scenario_question : string := "济南市家电以旧换新补贴标准是多少？".

(** The assistant messages of a transcript, and the fallback requests of a
    log. *)
Definition is_bot (m : Message) : bool :=
  match type m with bot => true | user => false end.

Definition assistant (ms : list Message) : list Message := List.filter is_bot ms.

Definition is_post (r : Request) : bool :=
  match r with PostQuery _ _ _ => true | StreamQuery _ _ _ _ => false end.

Definition fallbacks (rs : list Request) : list Request := List.filter is_post rs.

(** ** Measures along a run *)

Definition owned_by (q : nat) (e : Event) : bool :=
  match owner e with
  | Some a => (a =? q)%nat
  | None => false
  end.

Definition count_assistant (w : World) : nat :=
  length (assistant (messages (host w))).

Definition count_fallbacks (w : World) : nat :=
  length (fallbacks (network w)).

(** The assistant messages appended by the callbacks of query [q] along a
    run, and the fallback requests they send. *)
Fixpoint replies (q : nat) (w : World) (es : list Event) : nat :=
  match es with
  | [] => 0
  | e :: es' =>
    ((if owned_by q e then count_assistant (step w e) - count_assistant w else 0)
     + replies q (step w e) es')%nat
  end.

Fixpoint posts (q : nat) (w : World) (es : list Event) : nat :=
  match es with
  | [] => 0
  | e :: es' =>
    ((if owned_by q e then count_fallbacks (step w e) - count_fallbacks w else 0)
     + posts q (step w e) es')%nat
  end.

Definition pending (s : Stream) : bool :=
  match fallback s with Pending => true | _ => false end.

Definition settled (s : Stream) : bool :=
  match fallback s with Settled => true | _ => false end.

Definition asked (s : Stream) : bool :=
  match fallback s with NoFetch => false | _ => true end.

(** A query is over when its source is closed and no response is
    awaited; until then it is [live]. *)
Definition finished (s : Stream) : bool := closed s && negb (pending s).

Definition live (s : Stream) : bool := negb (finished s).

(** What the callbacks keep true of the variables of a query: an open
    source has neither completed nor fallen back; the fallback excludes
    completion and received data; a source closed without completion and
    without fallback has received data. *)
Definition consistent (s : Stream) : bool :=
  (closed s || (negb (isCompleted s) && negb (asked s)))
  && (negb (asked s) || (negb (isCompleted s) && negb (hasReceivedData s)))
  && (negb (closed s) || isCompleted s || asked s || hasReceivedData s).

Definition bit (b : bool) : nat := if b then 1 else 0.

(** The contents of the chunks of query [q] among the events of a run, in
    order. *)
Definition chunk_of (q : nat) (e : Event) : list string :=
  match e with
  | Frame a _ (Chunk content) => if (a =? q)%nat then [content] else []
  | _ => []
  end.

Definition chunk_contents (q : nat) (es : list Event) : list string :=
  flat_map (chunk_of q) es.

(** Events that leave the source of query [q] open: all but its own
    [complete] and [error] frames and the failure of its transport. *)
Definition keeps_open (q : nat) (e : Event) : bool :=
  match e with
  | Frame a _ (Complete _) | Frame a _ CompleteNoResult
  | Frame a _ (ErrorEvent _) | Failure a => negb (a =? q)%nat
  | _ => true
  end.

(** An error of the stream of query [q]: a failure of the transport, or
    an [error] frame. *)
Inductive stream_error (q : nat) : Event -> Prop :=
| transport_error : stream_error q (Failure q)
| error_frame (now : Z) (message : string) :
    stream_error q (Frame q now (ErrorEvent message)).

(** ** Readings of the specification

    The statements of the specification that the program is compared with. *)

(** The reading of the specification: once a newer query has started, a
    callback of an older one changes neither the transcript nor the
    buffer of the typewriter. *)
Definition generation_discard : Prop :=
  forall (es : list Event) (a : nat) (e : Event),
    let w := run mounted es in
    owner e = Some a ->
    (S a < length (streams w))%nat ->
    messages (host (step w e)) = messages (host w)
    /\ typingMessage (host (step w e)) = typingMessage (host w).

(** The reading of the specification: a query that is over has appended
    exactly one assistant message. *)
Definition one_reply_per_query : Prop :=
  forall (w : World) (now : Z) (text : string) (es : list Event) (s : Stream),
    blank text = false ->
    let w0 := handleSend now text w in
    streams (run w0 es) !! length (streams w) = Some s ->
    finished s = true ->
    replies (length (streams w)) w0 es = 1%nat.

(** The reading of the specification: an error that arrives before any
    chunk starts the fallback, once. *)
Definition fallback_on_first_error : Prop :=
  forall (w : World) (now : Z) (text : string) (e : Event) (es : list Event),
    blank text = false ->
    let q := length (streams w) in
    stream_error q e ->
    posts q (handleSend now text w) (e :: es) = 1%nat.

(** The reading of the specification: an error of the stream after a chunk
    appends an assistant message and sends no request. *)
Definition failure_notice_after_chunk : Prop :=
  forall (w : World) (now : Z) (text : string) (t : Z) (content : string) (e : Event),
    blank text = false ->
    let q := length (streams w) in
    stream_error q e ->
    let w1 := step (handleSend now text w) (Frame q t (Chunk content)) in
    count_assistant (step w1 e) = S (count_assistant w1)
    /\ count_fallbacks (step w1 e) = count_fallbacks w1.

(** The reading of the specification: a [chunk] frame calls [typeMessage]
    on the updated running text. *)
Definition chunk_restarts_typewriter : Prop :=
  forall (now : Z) (content : string) (h : Host) (s : Stream),
    (onmessage now (Chunk content) (h, s)).1
    = typeMessage (accumulatedText s ++ content) h.

(** ** More of the chat module *)

(** The geolocation effect (lines 425-459): the browser has no
    geolocation, or it calls the error callback, or it gives a position. *)
Inductive Geolocation : Type :=
| Unsupported
| Refused
| Position (latitude longitude : number).

(** The value the effect gives to [setUserLocation]. *)
Definition locate (g : Geolocation) : Location :=
  match g with
  | Position latitude longitude =>
    mkLocation (Some "山东省") (Some "济南市") None (Some (latitude, longitude))
  | Unsupported | Refused =>
    mkLocation (Some "山东省") (Some "济南市") None None
  end.





Definition is_submit (e : Event) : bool :=
  match e with Submit _ _ => true | _ => false end.

(** Events other than a [complete] frame without a result. *)
Definition has_result (e : Event) : bool :=
  match e with
  | Frame _ _ CompleteNoResult => false
  | _ => true
  end.




(** Periods of the timer, each with the way React applies the updater. *)
Definition ticks (eagers : list bool) (h : Host) : Host :=
  foldl (fun h eager => tick eager h) h eagers.

(** ** The calculator ([CalculatorModule], lines 877-898, 980, 996 and 1035-1042) *)

Module Calculator.

(** A whole number of magnitude below 2^53 as a number of the program. *)
Definition of_Z (z : Z) : number :=
  if z <? 0
  then PrimFloat.opp (PrimFloat.of_uint63 (Uint63.of_Z (- z)))
  else PrimFloat.of_uint63 (Uint63.of_Z z).

(** [Math.round(x)] as an integer; [x] is finite wherever this is used. *)
Definition round_Z (x : number) : Z :=
  match Math_round x with
  | RInt n => n
  | _ => 0
  end.

(** [table[key]] on an object literal, for the keys the literal has (the
    tags of the program are the labels of the six buttons; the properties
    an object inherits are not among them). *)
Fixpoint property {A : Type} (table : list (string * A)) (key : string) : option A :=
  match table with
  | [] => None
  | (k, v) :: rest => if String.eqb k key then Some v else property rest key
  end.

Definition PRICES : list (string * Z) :=
  [("一级能效空调", 3000); ("冰箱", 3000); ("洗衣机", 2000);
   ("电视", 2500); ("笔记本电脑", 5000); ("热水器", 1500)].

Definition RATES : list (string * number) :=
  [("一级能效空调", 0.20%float); ("冰箱", 0.20%float); ("洗衣机", 0.15%float);
   ("电视", 0.15%float); ("笔记本电脑", 0.15%float); ("热水器", 0.15%float)].

(** [PRICES[tag] || 3000]. *)
Definition price_of (tag : string) : Z :=
  match property PRICES tag with
  | Some p => if p =? 0 then 3000 else p
  | None => 3000
  end.

(** [RATES[tag] ?? 0.15]. *)
Definition rate_of (tag : string) : number :=
  match property RATES tag with
  | Some r => r
  | None => 0.15%float
  end.

(** [Math.round(price * rate)]. *)
Definition subsidy_of (tag : string) : Z :=
  round_Z (of_Z (price_of tag) * rate_of tag)%float.

Record Item : Type := mkItem {
  name : string;
  count : Z;
  price : Z;
  subsidy : Z
}.

Record Plan : Type := mkPlan {
  items : list Item;
  total_subsidy : Z;
  net_spend : Z;
  utilization : number;
  notes : string
}.

(** The [while] loop of one tag, on [count], [spend] and [totalSub]; it
    runs at most [fuel] times. *)
Fixpoint buy (fuel : nat) (budget price sub : Z) (st : Z * Z * Z) : Z * Z * Z :=
  match fuel with
  | O => st
  | S fuel' =>
    let '(count, spend, totalSub) := st in
    if spend + price <=? budget
    then buy fuel' budget price sub (count + 1, spend + price, totalSub + sub)
    else st
  end.

(** The body of the [for] loop, on [items], [spend] and [totalSub].  The
    [while] loop gets [budget] rounds, which is enough: every round spends
    at least one unit of money. *)
Definition plan_tag (budget : Z) (st : list Item * Z * Z) (tag : string)
  : list Item * Z * Z :=
  let '(items, spend, totalSub) := st in
  let price := price_of tag in
  let sub := subsidy_of tag in
  let '(count, spend', totalSub') :=
    buy (Z.to_nat budget) budget price sub (0, spend, totalSub) in
  (if 0 <? count then (items ++ [mkItem tag count price sub])%list else items,
   spend', totalSub').

Definition default_tags : list string := ["一级能效空调"; "冰箱"].

Definition plan_notes : string := "基于预算与品类的估算，最终以政策规则为准".

(** [buildPlan()] for the [selectedTags] and the [budget] of the render. *)
Definition buildPlan (selectedTags : list string) (budget : Z) : Plan :=
  let TAGS := match selectedTags with [] => default_tags | _ => selectedTags end in
  let '(items, spend, totalSub) := foldl (plan_tag budget) ([], 0, 0) TAGS in
  mkPlan items totalSub (Z.max (spend - totalSub) 0)
         (if 0 <? spend then (of_Z spend / of_Z budget)%float else 0%float)
         plan_notes.

(** The click on a category button:
    [prev.includes(tag) ? prev.filter(t => t !== tag) : [...prev, tag]]. *)
Definition toggle (tag : string) (prev : list string) : list string :=
  if existsb (String.eqb tag) prev
  then List.filter (fun t => negb (String.eqb t tag)) prev
  else (prev ++ [tag])%list.

(** The six buttons (line 993) and the values of the budget slider
    ([min="2000" max="50000" step="1000"]). *)
Definition buttons : list string :=
  ["一级能效空调"; "冰箱"; "洗衣机"; "电视"; "笔记本电脑"; "热水器"].

Definition slider_values : list Z := map (fun k => 1000 * Z.of_nat k) (seq 2 49).

(** The three figures of the result panel for a result
    [{ type: 'json', data }] (lines 1035-1042), before [toLocaleString]:
    the utilization as a percentage in tenths, the subsidy and the net
    spend.  [budget] is the budget of the render. *)
Definition shown_utilization (budget : Z) (data : Plan) : string :=
  let u := utilization data in
  let subsidy0 := total_subsidy data in
  let v := if (PrimFloat.eqb u 0 || PrimFloat.is_nan u)%bool
           then (of_Z (budget - subsidy0) / of_Z budget)%float
           else u in
  match Math_round (v * 1000)%float with
  | RInt n => tenths n
  | RInfinity false => "Infinity"
  | RInfinity true => "-Infinity"
  | RNaN => "NaN"
  end.

Definition shown_subsidy (data : Plan) : Z :=
  if total_subsidy data =? 0
  then foldl (fun sum i => sum + subsidy i) 0 (items data)
  else total_subsidy data.

Definition shown_net (budget : Z) (data : Plan) : Z :=
  if net_spend data =? 0
  then budget - total_subsidy data
  else net_spend data.

(** The cost and the subsidy of a list of items. *)
Definition cost (l : list Item) : Z := foldr (fun i acc => count i * price i + acc) 0 l.

Definition aid (l : list Item) : Z := foldr (fun i acc => count i * subsidy i + acc) 0 l.

(** The number of units the [while] loop buys when it is entered with
    [spend] spent. *)
Definition units (budget spend price : Z) : Z := Z.max 0 ((budget - spend) / price).

(** An item as [buildPlan] makes it: at least one unit, at the price and
    the subsidy of its tag. *)
Definition item_ok (i : Item) : Prop :=
  1 <= count i /\ price i = price_of (name i) /\ subsidy i = subsidy_of (name i).

(** The tags the [for] loop runs over. *)
Definition TAGS (selectedTags : list string) : list string :=
  match selectedTags with [] => default_tags | _ => selectedTags end.

End Calculator.

(** ** The charts ([Charts.jsx])

    A chart component gives [null] or a chart; of a chart the model keeps
    the data (labels, and datasets with their label and values) and the
    text of the title, not the colours, fonts and tooltip callbacks. *)

Module Charts.

Record Product : Type := mkProduct {
  name : string;
  price : number;
  subsidy : number
}.

(** [selected_products] is [None] when the field is absent or [null]; the
    three amounts may be absent; [utilization_rate] is a number. *)
Record Recommendation : Type := mkRecommendation {
  selected_products : option (list Product);
  utilization_rate : number;
  budget : option number;
  total_cost : option number;
  final_cost : option number
}.

Record Comparison : Type := mkComparison { jd_price : number }.

(** [comparisons] is [None] when the field is absent or [null]. *)
Record PriceComparison : Type := mkPriceComparison {
  comparisons : option (list Comparison)
}.

Record Dataset : Type := mkDataset {
  label : string;
  data : list number
}.

Record Chart : Type := mkChart {
  title : string;
  labels : list string;
  datasets : list Dataset
}.

(** [x.toFixed(1)], for a number of magnitude below 10^21: the integer
    nearest to ten times the exact value of [|x|], the larger one on a
    tie, written with one digit after the point. *)
Definition toFixed1 (x : number) : string :=
  match Prim2SF x with
  | S754_nan => "NaN"
  | S754_infinity false => "Infinity"
  | S754_infinity true => "-Infinity"
  | S754_zero _ => "0.0"
  | S754_finite s m e =>
    let n := if 0 <=? e then 10 * Z.pos m * 2 ^ e
             else round_half_up (10 * Z.pos m) (2 ^ (- e)) in
    (if s then "-" else "") ++ digits (n / 10) ++ "." ++ digits (n mod 10)
  end.

(** [SubsidyPieChart] (lines 32-104). *)
Definition SubsidyPieChart (recommendation : option Recommendation) : option Chart :=
  match recommendation with
  | Some r =>
    match selected_products r with
    | Some products =>
      Some (mkChart "补贴占比分析" (map name products)
              [mkDataset "补贴金额" (map subsidy products)])
    | None => None
    end
  | None => None
  end.

(** [PriceComparisonChart] (lines 109-209). *)
Definition PriceComparisonChart
  (recommendation : option Recommendation) (priceComparison : option PriceComparison)
  : option Chart :=
  match recommendation with
  | Some r =>
    match selected_products r with
    | Some products =>
      let jdPrices :=
        match priceComparison with
        | Some pc =>
          match comparisons pc with
          | Some cs => Some (map jd_price cs)
          | None => None
          end
        | None => None
        end in
      Some (mkChart "价格对比分析" (map name products)
              ([mkDataset "原价" (map price products);
                mkDataset "实付价" (map (fun p => (price p - subsidy p)%float) products);
                mkDataset "补贴" (map subsidy products)]
               ++ match jdPrices with
                  | Some l => [mkDataset "京东价格" l]
                  | None => []
                  end))
    | None => None
    end
  | None => None
  end.

(** [UtilizationChart] (lines 214-279). *)
Definition UtilizationChart (recommendation : option Recommendation) : option Chart :=
  match recommendation with
  | Some r =>
    Some (mkChart ("资金利用率: " ++ toFixed1 (utilization_rate r * 100)%float ++ "%")
            ["预算"; "实际花费"; "补贴后花费"]
            [mkDataset "金额 (元)"
               [or0 (budget r); or0 (total_cost r); or0 (final_cost r)]])
  | None => None
  end.

(** [VisualizationPanel] (lines 284-321): [null], or the three charts in
    the order of the grid. *)
Definition VisualizationPanel
  (recommendation : option Recommendation) (priceComparison : option PriceComparison)
  : option (option Chart * option Chart * option Chart) :=
  match recommendation with
  | Some r =>
    match selected_products r with
    | Some (_ :: _) =>
      Some (PriceComparisonChart recommendation priceComparison,
            SubsidyPieChart recommendation,
            UtilizationChart recommendation)
    | _ => None
    end
  | None => None
  end.

(** Every dataset has a value for every label. *)
Definition aligned (c : Chart) : Prop :=
  Forall (fun d => length (data d) = length (labels c)) (datasets c).

End Charts.

(** ** The batch consultation ([PoliciesModule], lines 1188-1198) *)

Module Policies.

Definition is_newline (c : ascii) : bool := unit_is c 10.

(** [s.split(/\n+/)]: [cur] is the piece being read, [after_newline]
    tells that the unit before was a line feed. *)
Fixpoint split_from (s cur : string) (after_newline : bool) : list string :=
  match s with
  | EmptyString => [cur]
  | String c rest =>
    if is_newline c
    then if after_newline
         then split_from rest "" true
         else cur :: split_from rest "" true
    else split_from rest (cur ++ String c "") false
  end.

Definition split_newlines (s : string) : list string := split_from s "" false.

(** [s.trimStart()]: the white space of [blank] is dropped at the start. *)
Fixpoint trimStart (s : string) : string :=
  match s with
  | EmptyString => ""
  | String c s1 =>
    if ascii_space c then trimStart s1
    else if unit_is c 194 then
      match s1 with
      | String d s2 => if unit_is d 160 then trimStart s2 else s
      | _ => s
      end
    else if unit_is c 225 then
      match s1 with
      | String d (String e s3) =>
        if unit_is d 154 && unit_is e 128 then trimStart s3 else s
      | _ => s
      end
    else if unit_is c 226 then
      match s1 with
      | String d (String e s3) =>
        let n := nat_of_ascii e in
        if (unit_is d 128 &&
            (((128 <=? n)%nat && (n <=? 138)%nat)
             || (n =? 168)%nat || (n =? 169)%nat || (n =? 175)%nat))
           || (unit_is d 129 && (n =? 159)%nat)
        then trimStart s3 else s
      | _ => s
      end
    else if unit_is c 227 then
      match s1 with
      | String d (String e s3) =>
        if unit_is d 128 && unit_is e 128 then trimStart s3 else s
      | _ => s
      end
    else if unit_is c 239 then
      match s1 with
      | String d (String e s3) =>
        if unit_is d 187 && unit_is e 191 then trimStart s3 else s
      | _ => s
      end
    else s
  end.

(** [s.trimEnd()]: what follows is dropped once it is all white space. *)
Fixpoint trimEnd (s : string) : string :=
  if blank s then ""
  else match s with
       | EmptyString => ""
       | String c rest => String c (trimEnd rest)
       end.

Definition trim (s : string) : string := trimEnd (trimStart s).

Definition nonempty (s : string) : bool :=
  match s with EmptyString => false | String _ _ => true end.

(** [batchInput.split(/\n+/).map(s => s.trim()).filter(Boolean)]. *)
Definition questions (batchInput : string) : list string :=
  List.filter nonempty (map trim (split_newlines batchInput)).

(** The click on the batch button: nothing without questions, else the
    body [{ questions }] posted to [/api/batch_query]. *)
Definition batch_request (batchInput : string) : option (list string) :=
  match questions batchInput with
  | [] => None
  | qs => Some qs
  end.

Fixpoint no_newline (s : string) : bool :=
  match s with
  | EmptyString => true
  | String c rest => negb (is_newline c) && no_newline rest
  end.

(** A line as it is sent: not empty, without line feed, and with no white
    space to trim. *)
Definition clean (q : string) : Prop :=
  q <> "" /\ no_newline q = true /\ trim q = q.

End Policies.

(** * Properties *)

(** ** Strings *)

Lemma append_nil_r (a : string) : a ++ "" = a.
Proof.
  induction a as [|c a IH]; [reflexivity|].
  change (String c (a ++ "") = String c a). f_equal. exact IH.
Qed.

Lemma append_assoc (a b c : string) : (a ++ b) ++ c = a ++ (b ++ c).
Proof.
  induction a as [|x a IH]; [reflexivity|].
  change (String x ((a ++ b) ++ c) = String x (a ++ (b ++ c))). f_equal. exact IH.
Qed.

Lemma cat_app (l1 l2 : list string) : cat (l1 ++ l2) = cat l1 ++ cat l2.
Proof.
  induction l1 as [|x l1 IH]; simpl; [reflexivity|].
  unfold cat in *. simpl. rewrite IH. symmetry. apply append_assoc.
Qed.

Lemma cat_cons (x : string) (l : list string) : cat (x :: l) = x ++ cat l.
Proof. reflexivity. Qed.

(** The first [k] units and the unit at index [k] are the first [k + 1]
    units; past the end there is nothing to add. *)
Lemma cat_take_S (l : list string) (k : nat) :
  cat (take k l) ++ default "" (l !! k) = cat (take (S k) l).
Proof.
  destruct (l !! k) as [x|] eqn:Hk; simpl.
  - rewrite (take_S_r l k x Hk), cat_app, cat_cons.
    change (cat []) with "". rewrite append_nil_r. reflexivity.
  - apply lookup_ge_None in Hk.
    rewrite append_nil_r, !take_ge by lia. reflexivity.
Qed.

Lemma prefix_append (a b : string) : String.prefix a (a ++ b) = true.
Proof.
  induction a as [|c a IH]; simpl; [destruct b; reflexivity|].
  destruct (ascii_dec c c); [exact IH|congruence].
Qed.

(** The first units of a text, put together, are a prefix of all of them
    put together. *)
Lemma cat_take_prefix (l : list string) (k : nat) :
  String.prefix (cat (take k l)) (cat l) = true.
Proof.
  rewrite <- (take_drop k l) at 2. rewrite cat_app. apply prefix_append.
Qed.

Lemma code_units_cons (a : ascii) (s1 : string) :
  code_units (String a s1) =
  (let n := N_of_ascii a in
   if (n <? 192)%N then String a "" :: code_units s1
   else
     match s1 with
     | String b s2 =>
       if (n <? 224)%N then String a (String b "") :: code_units s2
       else
         match s2 with
         | String c s3 =>
           if (n <? 240)%N then String a (String b (String c "")) :: code_units s3
           else
             match s3 with
             | String d s4 =>
               let v := supplementary a b c d in
               three_bytes (55296 + v / 1024)%N
                 :: three_bytes (56320 + v mod 1024)%N :: code_units s4
             | EmptyString => [String a s1]
             end
         | EmptyString => [String a s1]
         end
     | EmptyString => [String a s1]
     end).
Proof. reflexivity. Qed.

(** The units of a text of the Basic Multilingual Plane are pieces of the
    text: put together they are the text. *)
Lemma code_units_bmp_bounded (n : nat) :
  forall s, (String.length s <= n)%nat -> bmp s = true -> cat (code_units s) = s.
Proof.
  induction n as [|n IH]; intros s Hn Hb.
  - destruct s; [reflexivity|simpl in Hn; lia].
  - destruct s as [|a s1]; [reflexivity|].
    unfold bmp in Hb. simpl in Hb, Hn.
    apply andb_true_iff in Hb as [Ha Hb1].
    rewrite code_units_cons. cbv zeta.
    destruct (N_of_ascii a <? 192)%N.
    { rewrite cat_cons, (IH s1) by (assumption || lia). reflexivity. }
    destruct s1 as [|b s2]; [reflexivity|].
    simpl in Hb1, Hn. apply andb_true_iff in Hb1 as [_ Hb2].
    destruct (N_of_ascii a <? 224)%N.
    { rewrite cat_cons, (IH s2) by (assumption || lia). reflexivity. }
    destruct s2 as [|c s3]; [reflexivity|].
    simpl in Hb2, Hn. apply andb_true_iff in Hb2 as [_ Hb3].
    rewrite Ha. rewrite cat_cons, (IH s3) by (assumption || lia). reflexivity.
Qed.

Lemma code_units_bmp (s : string) : bmp s = true -> cat (code_units s) = s.
Proof. apply (code_units_bmp_bounded (String.length s)). lia. Qed.

(** ** The typewriter *)

(** After [k] periods in which React applies the updater inside the call of
    the setter, the buffer holds the first [k] units of the message. *)
Lemma typeMessage_eager (message : string) (h : Host) (k : nat) :
  (k <= length (code_units message))%nat ->
  let h' := Nat.iter k (tick true) (typeMessage message h) in
  typingMessage h' = cat (take k (code_units message))
  /\ typingIndex h' = k
  /\ typingInterval h' = Some message
  /\ isTyping h' = true.
Proof.
  induction k as [|k IH]; intros Hk; simpl.
  - repeat split.
  - destruct IH as (Hm & Hi & Ht & Hy); [lia|].
    destruct (Nat.iter k (tick true) (typeMessage message h)); simpl in *; subst.
    unfold tick, interval_callback; simpl.
    destruct (Nat.ltb_spec k (length (code_units message))) as [_|]; [|lia].
    simpl. repeat split. apply cat_take_S.
Qed.

(** After [k] periods in which React applies the updater while rendering,
    the buffer holds the [k] units that follow the first one. *)
Lemma typeMessage_deferred (message : string) (h : Host) (k : nat) :
  (k <= length (code_units message))%nat ->
  let h' := Nat.iter k (tick false) (typeMessage message h) in
  typingMessage h' = cat (take k (drop 1 (code_units message)))
  /\ typingIndex h' = k
  /\ typingInterval h' = Some message.
Proof.
  induction k as [|k IH]; intros Hk; simpl.
  - repeat split.
  - destruct IH as (Hm & Hi & Ht); [lia|].
    destruct (Nat.iter k (tick false) (typeMessage message h)); simpl in *; subst.
    unfold tick, interval_callback; simpl.
    destruct (Nat.ltb_spec k (length (code_units message))) as [_|]; [|lia].
    simpl. repeat split. unfold charAt.
    rewrite <- (cat_take_S (drop 1 (code_units message)) k), lookup_drop. reflexivity.
Qed.

(** Hence, with the updater applied while rendering, a run that is left to
    end has shown the message without its first unit, and never the
    message. *)
Lemma typeMessage_deferred_end (message : string) (h : Host) :
  let L := length (code_units message) in
  let h' := Nat.iter L (tick false) (typeMessage message h) in
  typingMessage h' = cat (drop 1 (code_units message))
  /\ typingIndex h' = L.
Proof.
  intros L h'.
  destruct (typeMessage_deferred message h L (le_n _)) as (Hm & Hi & _).
  fold h' in Hm, Hi. split; [|exact Hi].
  rewrite Hm, take_ge; [reflexivity|]. rewrite length_drop. lia.
Qed.

(** The period after the last unit clears the buffer and the interval. *)
Lemma tick_at_end (eager : bool) (message : string) (h : Host) :
  typingInterval h = Some message ->
  typingIndex h = length (code_units message) ->
  tick eager h = clearTyping h.
Proof.
  intros Ht Hi. unfold tick, interval_callback. rewrite Ht, Hi.
  rewrite Nat.ltb_irrefl. reflexivity.
Qed.

(** Without a live interval a period of the timer changes nothing. *)
Lemma tick_idle (eager : bool) (h : Host) :
  typingInterval h = None -> tick eager h = h.
Proof. intros Ht. unfold tick. rewrite Ht. reflexivity. Qed.

(** Started on "ab" and run with the updater applied while rendering, the
    typewriter shows "b" after the first period, which is no prefix of
    "ab"; the second period adds nothing, so two units are never shown,
    and the third clears the buffer and stops the interval.  With the
    updater applied inside the setter the same run shows "a", then "ab". *)
Example typeMessage_ab (h : Host) :
  let run_ticks eager k := Nat.iter k (tick eager) (typeMessage "ab" h) in
  typingMessage (run_ticks false 1%nat) = "b"
  /\ String.prefix (typingMessage (run_ticks false 1%nat)) "ab" = false
  /\ typingMessage (run_ticks false 2%nat) = "b"
  /\ typingMessage (run_ticks false 3%nat) = ""
  /\ typingInterval (run_ticks false 3%nat) = None
  /\ typingMessage (run_ticks true 1%nat) = "a"
  /\ typingMessage (run_ticks true 2%nat) = "ab".
Proof. repeat split. Qed.

(** A text of two units in four bytes is shown in full after two periods
    and cleared by the third; a code point beyond the Basic Multilingual
    Plane takes two periods, one for each surrogate. *)
Example typeMessage_units (h : Host) :
  let run_ticks message k := Nat.iter k (tick true) (typeMessage message h) in
  length (code_units "中a") = 2%nat
  /\ typingMessage (run_ticks "中a" 1%nat) = "中"
  /\ typingMessage (run_ticks "中a" 2%nat) = "中a"
  /\ typingInterval (run_ticks "中a" 2%nat) = Some "中a"
  /\ run_ticks "中a" 3%nat = clearTyping h
  /\ length (code_units "😀") = 2%nat
  /\ typingMessage (run_ticks "😀" 1%nat) = three_bytes 55357
  /\ typingMessage (run_ticks "😀" 2%nat) = three_bytes 55357 ++ three_bytes 56832
  /\ run_ticks "😀" 3%nat = clearTyping h.
Proof. repeat split. Qed.

(** Under eager application the buffer is a prefix of the message, made of
    its first [k] units after [k] periods. *)
Lemma typeMessage_eager_prefix (message : string) (h : Host) (k : nat) :
  (k <= length (code_units message))%nat ->
  bmp message = true ->
  let shown := typingMessage (Nat.iter k (tick true) (typeMessage message h)) in
  String.prefix shown message = true /\ shown = cat (take k (code_units message)).
Proof.
  intros Hk Hb. destruct (typeMessage_eager message h k Hk) as (Hm & _).
  simpl. rewrite Hm. split; [|reflexivity].
  rewrite <- (code_units_bmp message Hb) at 2. apply cat_take_prefix.
Qed.

(** ** The text of a reply *)

(** [round_half_up n d] is the integer nearest to [n / d], the upper one
    on a tie. *)
Lemma round_half_up_nearest (n d : Z) :
  0 < d ->
  let k := round_half_up n d in
  2 * k * d - d <= 2 * n < 2 * k * d + d.
Proof.
  intros Hd k. subst k. unfold round_half_up.
  pose proof (Z.div_mod (2 * n + d) (2 * d) ltac:(lia)) as E.
  pose proof (Z.mod_pos_bound (2 * n + d) (2 * d) ltac:(lia)) as B.
  nia.
Qed.

(** On a float with a fractional part, [Math_round] is the integer nearest
    to its exact value [n / 2^(-e)], the upper one on a tie. *)
Lemma Math_round_nearest (x : number) (sign : bool) (m : positive) (e : Z) :
  Prim2SF x = S754_finite sign m e ->
  e < 0 ->
  let n := if sign then Z.neg m else Z.pos m in
  exists k,
    Math_round x = RInt k
    /\ 2 * k * 2 ^ (- e) - 2 ^ (- e) <= 2 * n < 2 * k * 2 ^ (- e) + 2 ^ (- e).
Proof.
  intros Hx He n. unfold Math_round. rewrite Hx.
  destruct (Z.leb_spec 0 e) as [|_]; [lia|].
  eexists. split; [reflexivity|].
  apply round_half_up_nearest. apply Z.pow_pos_nonneg; lia.
Qed.



Lemma percent_missing (x : option number) : missing x = true -> percent x = "0".
Proof.
  intros H. unfold percent.
  assert (or0 x = 0%float) as ->; [|reflexivity].
  destruct x as [v|]; [|reflexivity]. unfold or0. simpl in H. rewrite H. reflexivity.
Qed.

(** C10. A confidence or a similarity that is absent, [null], zero or NaN
    is rendered as 0%: the reply of a payload with such a confidence
    reads "置信度: 0%" after the answer, and each of its first two sources
    with such a similarity has the line of its name ending with
    "(相关度: 0%)".  The [complete] frame and the response of the fallback
    both append that reply as one assistant message. *)
Theorem missing_score_is_zero_percent
  (ans : string) (c : option number) (name1 name2 : string) (x1 x2 : option number)
  (rest : list Source) (now : Z) (h : Host) (s : Stream) :
  missing c = true ->
  missing x1 = true ->
  missing x2 = true ->
  let bare := mkResult ans c None in
  let one := mkResult ans c (Some [mkSource name1 x1]) in
  let two := mkResult ans c (Some (mkSource name1 x1 :: mkSource name2 x2 :: rest)) in
  missing None = true
  /\ missing (Some 0%float) = true
  /\ missing (Some (-0)%float) = true
  /\ missing (Some nan) = true
  /\ percent c = "0"
  /\ reply bare = ans ++ nl ++ nl ++ "置信度: 0%"
  /\ reply one = ans ++ nl ++ nl ++ "置信度: 0%" ++ nl ++ nl ++ "参考来源:" ++ nl ++
                 "1. " ++ name1 ++ " (相关度: 0%)"
  /\ reply two = ans ++ nl ++ nl ++ "置信度: 0%" ++ nl ++ nl ++ "参考来源:" ++ nl ++
                 "1. " ++ name1 ++ " (相关度: 0%)" ++ nl ++
                 "2. " ++ name2 ++ " (相关度: 0%)"
  /\ (forall r, In r [bare; one; two] ->
        messages (onmessage now (Complete r) (h, s)).1
        = (messages h ++ [mkMessage (now + 1) bot (reply r)])%list
        /\ messages (onsettled now (Some r) h)
           = (messages h ++ [mkMessage (now + 1) bot (reply r)])%list).
Proof.
  intros Hc H1 H2. cbv zeta.
  do 4 (split; [reflexivity|]).
  split; [apply percent_missing, Hc|].
  unfold reply, sourcesText, source_line; simpl.
  rewrite (percent_missing c Hc), (percent_missing x1 H1), (percent_missing x2 H2).
  split; [reflexivity|].
  split; [reflexivity|].
  split.
  - f_equal. do 2 (change (String ?a ?x = String ?a ?y) with (String a x = String a y); f_equal).
    simpl. rewrite !append_assoc. reflexivity.
  - intros r _. split; reflexivity.
Qed.

Lemma missing_score_is_zero_percent_witness :
  reply (mkResult "ok" None (Some [mkSource "细则.pdf" None]))
  = "ok" ++ nl ++ nl ++ "置信度: 0%" ++ nl ++ nl ++ "参考来源:" ++ nl ++
    "1. 细则.pdf (相关度: 0%)"
  /\ reply (mkResult "ok" (Some nan)
              (Some [mkSource "a" (Some 0%float); mkSource "b" None; mkSource "c" (Some 1%float)]))
     = "ok" ++ nl ++ nl ++ "置信度: 0%" ++ nl ++ nl ++ "参考来源:" ++ nl ++
       "1. a (相关度: 0%)" ++ nl ++ "2. b (相关度: 0%)".
Proof.
  split.
  - exact (proj1 (proj2 (proj2 (proj2 (proj2 (proj2 (proj2
             (missing_score_is_zero_percent "ok" None "细则.pdf" "b" None None []
                0 (host mounted) (open_stream "q" None) eq_refl eq_refl eq_refl)))))))).
  - exact (proj1 (proj2 (proj2 (proj2 (proj2 (proj2 (proj2 (proj2
             (missing_score_is_zero_percent "ok" (Some nan) "a" "b" (Some 0%float) None
                [mkSource "c" (Some 1%float)]
                0 (host mounted) (open_stream "q" None) eq_refl eq_refl eq_refl))))))))).
Defined.

(** ** Chunks and the typewriter *)

(** On the mounted page a first chunk "ab" leaves the buffer showing "ab"
    and no interval, where [typeMessage] leaves it empty with an interval. *)
Lemma chunk_does_not_restart_typewriter : ~ chunk_restarts_typewriter.
Proof.
  intros H.
  specialize (H 0 "ab" (host mounted) (open_stream "q" None)).
  apply (f_equal typingMessage) in H. vm_compute in H. discriminate H.
Qed.

(** No event arms the interval: [typeMessage] has no caller. *)
Lemma step_no_interval (w : World) (e : Event) :
  typingInterval (host w) = None -> typingInterval (host (step w e)) = None.
Proof.
  intros Hw. destruct e as [now arg|v|l|q now d|q|q now r|eager]; simpl; try assumption.
  - unfold handleSend. destruct (blank _); simpl; assumption.
  - destruct (streams w !! q) as [s|]; [|assumption].
    destruct (closed s); [assumption|]. destruct d; simpl; auto.
  - destruct (streams w !! q) as [s|]; [|assumption].
    destruct (closed s); [assumption|]. unfold onerror; simpl.
    destruct (hasReceivedData s), (isCompleted s); simpl; auto.
  - destruct (streams w !! q) as [s|]; [|assumption].
    destruct (fallback s); simpl; auto.
  - rewrite tick_idle; assumption.
Qed.

Lemma run_snoc (w : World) (es : list Event) (e : Event) :
  run w (es ++ [e]) = step (run w es) e.
Proof. unfold run. rewrite foldl_app. reflexivity. Qed.

Lemma run_cons (w : World) (e : Event) (es : list Event) :
  run w (e :: es) = run (step w e) es.
Proof. reflexivity. Qed.

Lemma run_no_interval (es : list Event) :
  typingInterval (host (run mounted es)) = None.
Proof.
  induction es as [|e es IH] using rev_ind; [reflexivity|].
  rewrite run_snoc. apply step_no_interval, IH.
Qed.

(** C6 (as the code has it). A [chunk] frame appends its content to the
    running text and puts the whole running text in the buffer at once,
    with the typing flag set; it leaves the index and the interval of the
    typewriter as they were.  On the page no interval is ever live, so no
    period of the timer reveals anything: a timer event changes nothing. *)
Theorem chunk_frame_shows_text_at_once
  (now : Z) (content : string) (h : Host) (s : Stream)
  (es : list Event) (eager : bool) :
  let hs := onmessage now (Chunk content) (h, s) in
  accumulatedText hs.2 = accumulatedText s ++ content
  /\ typingMessage hs.1 = accumulatedText s ++ content
  /\ isTyping hs.1 = true
  /\ typingIndex hs.1 = typingIndex h
  /\ typingInterval hs.1 = typingInterval h
  /\ messages hs.1 = messages h
  /\ typingInterval (host (run mounted es)) = None
  /\ step (run mounted es) (Timer eager) = run mounted es.
Proof.
  cbv zeta. do 6 (split; [reflexivity|]).
  split; [apply run_no_interval|].
  simpl. rewrite tick_idle by apply run_no_interval.
  destruct (run mounted es); reflexivity.
Qed.

(** C9. When [isCompleted] is set, the error callback of the event source
    closes the source and does nothing else: the component state is the
    same (no message, the thinking flag as it was) and no request is
    sent. *)
Theorem onerror_after_completion (h : Host) (s : Stream) :
  isCompleted s = true ->
  onerror (h, s) = (h, set_closed s, None).
Proof.
  intros Hc. unfold onerror. simpl. rewrite Hc.
  rewrite andb_false_r. reflexivity.
Qed.

Lemma onerror_after_completion_witness :
  let s := (onmessage 5 (ErrorEvent "x") (host mounted, open_stream "q" None)).2 in
  isCompleted s = true /\ onerror (host mounted, s) = (host mounted, set_closed s, None).
Proof.
  split; [reflexivity|].
  apply (onerror_after_completion (host mounted)
           (onmessage 5 (ErrorEvent "x") (host mounted, open_stream "q" None)).2).
  reflexivity.
Defined.

(** A [complete] frame and an [error] frame set [isCompleted]. *)
Lemma onmessage_sets_isCompleted (now : Z) (hs : Host * Stream) :
  (forall r, isCompleted (onmessage now (Complete r) hs).2 = true)
  /\ (forall m, isCompleted (onmessage now (ErrorEvent m) hs).2 = true).
Proof. split; reflexivity. Qed.

(** ** Queries side by side *)

(** The callbacks write the shared state by appending only. *)
Lemma step_messages_prefix (w : World) (e : Event) :
  messages (host w) `prefix_of` messages (host (step w e)).
Proof.
  destruct e as [now arg|v|l|q now d|q|q now r|eager]; simpl; try reflexivity.
  - unfold handleSend. destruct (blank _); simpl; [reflexivity|].
    apply prefix_app_r. reflexivity.
  - destruct (streams w !! q) as [s|]; [|reflexivity].
    destruct (closed s); [reflexivity|].
    destruct d; simpl; try reflexivity; apply prefix_app_r; reflexivity.
  - destruct (streams w !! q) as [s|]; [|reflexivity].
    destruct (closed s); [reflexivity|]. unfold onerror; simpl.
    destruct (hasReceivedData s), (isCompleted s); reflexivity.
  - destruct (streams w !! q) as [s|]; [|reflexivity].
    destruct (fallback s); simpl; try reflexivity.
    apply prefix_app_r. reflexivity.
  - unfold tick. destruct (typingInterval (host w)); [|reflexivity].
    unfold interval_callback.
    destruct (_ <? _)%nat; [destruct eager|]; reflexivity.
Qed.

Lemma step_network_prefix (w : World) (e : Event) :
  network w `prefix_of` network (step w e).
Proof.
  destruct e as [now arg|v|l|q now d|q|q now r|eager]; simpl; try reflexivity.
  - unfold handleSend. destruct (blank _); simpl; [reflexivity|].
    apply prefix_app_r. reflexivity.
  - destruct (streams w !! q) as [s|]; [|reflexivity].
    destruct (closed s); reflexivity.
  - destruct (streams w !! q) as [s|]; [|reflexivity].
    destruct (closed s); [reflexivity|]. simpl.
    apply prefix_app_r. reflexivity.
  - destruct (streams w !! q) as [s|]; [|reflexivity].
    destruct (fallback s); reflexivity.
Qed.

(** The variables of a call of [handleSend] are written by its own
    callbacks only. *)
Lemma step_keeps_stream (w : World) (e : Event) (b : nat) (s : Stream) :
  owner e <> Some b ->
  streams w !! b = Some s ->
  streams (step w e) !! b = Some s.
Proof.
  intros Ho Hb.
  destruct e as [now arg|v|l|q now d|q|q now r|eager]; simpl; try assumption.
  - unfold handleSend. destruct (blank _); simpl; [assumption|].
    apply lookup_app_l_Some, Hb.
  - assert (q <> b) by (intros ->; apply Ho; reflexivity).
    destruct (streams w !! q) as [sq|]; [|assumption].
    destruct (closed sq); [assumption|]. simpl.
    rewrite list_lookup_insert_ne; assumption.
  - assert (q <> b) by (intros ->; apply Ho; reflexivity).
    destruct (streams w !! q) as [sq|]; [|assumption].
    destruct (closed sq); [assumption|]. simpl.
    rewrite list_lookup_insert_ne; assumption.
  - assert (q <> b) by (intros ->; apply Ho; reflexivity).
    destruct (streams w !! q) as [sq|]; [|assumption].
    destruct (fallback sq); try assumption. simpl.
    rewrite list_lookup_insert_ne; assumption.
Qed.

Lemma step_callback_other_stream (w : World) (e : Event) (a b : nat) :
  owner e = Some a -> a <> b ->
  streams (step w e) !! b = streams w !! b.
Proof.
  intros Ho Hab.
  destruct e as [now arg|v|l|q now d|q|q now r|eager]; simpl in Ho;
    try discriminate; injection Ho as ->; simpl.
  - destruct (streams w !! a) as [sq|]; [|reflexivity].
    destruct (closed sq); [reflexivity|]. simpl.
    apply list_lookup_insert_ne, Hab.
  - destruct (streams w !! a) as [sq|]; [|reflexivity].
    destruct (closed sq); [reflexivity|]. simpl.
    apply list_lookup_insert_ne, Hab.
  - destruct (streams w !! a) as [sq|]; [|reflexivity].
    destruct (fallback sq); try reflexivity. simpl.
    apply list_lookup_insert_ne, Hab.
Qed.

(** Query 0 is pending when query 1 is submitted; a chunk of query 0 then
    replaces the buffer. *)
Lemma stale_chunk_is_shown : ~ generation_discard.
Proof.
  intros H.
  destruct (H [Submit 10 (Some "A"); Submit 20 (Some "B")] 0%nat
              (Frame 0 30 (Chunk "x")) eq_refl) as [_ Ht].
  - simpl. lia.
  - vm_compute in Ht. discriminate Ht.
Qed.

(** C1 (as the code has it). There is no generation counter: a callback
    of query [a] runs whatever was submitted since.  It leaves the
    variables of every other query [b] as they are, and it changes the
    transcript and the request log by appending only; a chunk of an open
    query puts that query's running text in the buffer, and a [complete]
    frame of an open query appends its reply. *)
Theorem stale_callback_effect (w : World) (a b : nat) (e : Event) :
  owner e = Some a ->
  a <> b ->
  streams (step w e) !! b = streams w !! b
  /\ messages (host w) `prefix_of` messages (host (step w e))
  /\ network w `prefix_of` network (step w e)
  /\ (forall s now content,
        e = Frame a now (Chunk content) ->
        streams w !! a = Some s -> closed s = false ->
        typingMessage (host (step w e)) = accumulatedText s ++ content)
  /\ (forall s now r,
        e = Frame a now (Complete r) ->
        streams w !! a = Some s -> closed s = false ->
        messages (host (step w e))
        = (messages (host w) ++ [mkMessage (now + 1) bot (reply r)])%list).
Proof.
  intros Ho Hab. split; [eapply step_callback_other_stream; eassumption|].
  split; [apply step_messages_prefix|].
  split; [apply step_network_prefix|].
  split; intros s now x -> Hs Hc; simpl; rewrite Hs, Hc; reflexivity.
Qed.

Lemma stale_callback_effect_witness :
  let w := run mounted [Submit 10 (Some "A"); Submit 20 (Some "B")] in
  let e := Frame 0 30 (Chunk "x") in
  streams (step w e) !! 1%nat = streams w !! 1%nat
  /\ typingMessage (host (step w e)) = "x".
Proof.
  pose proof (stale_callback_effect
                (run mounted [Submit 10 (Some "A"); Submit 20 (Some "B")])
                0%nat 1%nat (Frame 0 30 (Chunk "x")) eq_refl ltac:(discriminate))
    as (H1 & _ & _ & H4 & _).
  split; [exact H1|].
  exact (H4 (open_stream "A" None) 30 "x" eq_refl eq_refl eq_refl).
Defined.

(** ** Counting what a query does *)

Lemma count_fallbacks_snoc (rs : list Request) (o : option Request) :
  length (fallbacks (rs ++ option_list o))
  = (length (fallbacks rs) + match o with Some r => bit (is_post r) | None => 0 end)%nat.
Proof.
  unfold fallbacks. rewrite List.filter_app, length_app.
  destruct o as [r|]; simpl; [destruct (is_post r)|]; reflexivity.
Qed.

Section OneQuery.

Variable q : nat.

(** A callback of query [q]: where it leaves the variables of the query,
    and what it appends to the transcript and to the request log.  It
    appends an assistant message only while the query is live, and the
    query is over when it has. *)
Lemma own_step (w : World) (e : Event) (s : Stream) :
  owned_by q e = true ->
  streams w !! q = Some s ->
  consistent s = true ->
  exists s1,
    streams (step w e) !! q = Some s1
    /\ consistent s1 = true
    /\ (count_assistant w <= count_assistant (step w e))%nat
    /\ (count_assistant (step w e) + bit (live s1)
        <= count_assistant w + bit (live s))%nat
    /\ (count_fallbacks (step w e) + bit (asked s)
        = count_fallbacks w + bit (asked s1))%nat
    /\ (bit (asked s) <= bit (asked s1))%nat
    /\ (hasReceivedData s = true -> hasReceivedData s1 = true)
    /\ (closed s = true -> closed s1 = true).
Proof.
  intros Ho Hs Hc.
  pose proof (lookup_lt_Some _ _ _ Hs) as Hlt.
  destruct e as [now arg|v|l|a now d|a|a now r|eager];
    unfold owned_by in Ho; simpl in Ho; try discriminate;
    apply Nat.eqb_eq in Ho; subst a; unfold step; rewrite Hs.
  - (* a frame *)
    destruct (closed s) eqn:Hcl; [exists s; repeat split; auto; lia|].
    unfold with_stream; simpl streams. rewrite list_lookup_insert_eq by assumption.
    eexists; split; [reflexivity|].
    unfold count_assistant, count_fallbacks.
    destruct s as [qu lo cl hrd cmp acc fb]; simpl in Hcl; subst cl.
    destruct d, hrd, cmp, fb; try discriminate Hc;
      cbn; unfold assistant, push; rewrite ?List.filter_app, ?length_app; cbn;
      repeat split; try lia; intros; first [discriminate | reflexivity].
  - (* a failure of the transport *)
    destruct (closed s) eqn:Hcl; [exists s; repeat split; auto; lia|].
    simpl streams. rewrite list_lookup_insert_eq by assumption.
    eexists; split; [reflexivity|].
    unfold count_assistant, count_fallbacks. simpl network.
    rewrite count_fallbacks_snoc.
    destruct s as [qu lo cl hrd cmp acc fb]; simpl in Hcl; subst cl.
    destruct hrd, cmp, fb; try discriminate Hc;
      cbn; unfold assistant; repeat split; try lia; intros;
      first [discriminate | reflexivity].
  - (* the response of the fallback *)
    destruct (fallback s) eqn:Hf;
      [exists s; repeat split; auto; lia| |exists s; repeat split; auto; lia].
    unfold with_stream; simpl streams. rewrite list_lookup_insert_eq by assumption.
    eexists; split; [reflexivity|].
    unfold count_assistant, count_fallbacks.
    destruct s as [qu lo cl hrd cmp acc fb]; simpl in Hf; subst fb.
    destruct cl, hrd, cmp; try discriminate Hc;
      cbn; unfold assistant, push; rewrite ?List.filter_app, ?length_app; cbn;
      repeat split; try lia; auto.
Qed.

Lemma not_owned (e : Event) : owned_by q e = false -> owner e <> Some q.
Proof.
  unfold owned_by. intros H E. rewrite E in H.
  rewrite Nat.eqb_refl in H. discriminate H.
Qed.

(** Along any run, whatever else happens on the page, the callbacks of
    query [q] append an assistant message only while the query is live,
    and at most one; they send one request when the query falls back. *)
Lemma run_query (es : list Event) :
  forall (w : World) (s : Stream),
    streams w !! q = Some s ->
    consistent s = true ->
    exists s',
      streams (run w es) !! q = Some s'
      /\ consistent s' = true
      /\ (replies q w es + bit (live s') <= bit (live s))%nat
      /\ (posts q w es + bit (asked s) = bit (asked s'))%nat
      /\ (hasReceivedData s = true -> hasReceivedData s' = true)
      /\ (closed s = true -> closed s' = true).
Proof.
  induction es as [|e es IH]; intros w s Hs Hc.
  - exists s. simpl. auto 10.
  - rewrite run_cons. simpl replies. simpl posts.
    destruct (owned_by q e) eqn:Ho.
    + destruct (own_step w e s Ho Hs Hc)
        as (s1 & Hs1 & Hc1 & Hm & Hr & Hp & Hpm & Hd & Hcl).
      destruct (IH _ _ Hs1 Hc1) as (s' & Hs' & Hc' & Hr' & Hp' & Hd' & Hcl').
      exists s'. repeat split; auto; lia.
    + pose proof (step_keeps_stream w e q s (not_owned e Ho) Hs) as Hs1.
      destruct (IH _ _ Hs1 Hc) as (s' & Hs' & Hc' & Hr' & Hp' & Hd' & Hcl').
      exists s'. repeat split; auto.
Qed.

(** A query that is over appends nothing more. *)
Lemma no_reply_when_finished (es : list Event) (w : World) (s : Stream) :
  streams w !! q = Some s ->
  consistent s = true ->
  finished s = true ->
  replies q w es = 0%nat.
Proof.
  intros Hs Hc Hf.
  destruct (run_query es w s Hs Hc) as (s' & _ & _ & Hr & _).
  unfold live in Hr. rewrite Hf in Hr. simpl in Hr. lia.
Qed.

(** Once a frame was received the query never falls back. *)
Lemma no_fallback_after_data (es : list Event) (w : World) (s : Stream) :
  streams w !! q = Some s ->
  consistent s = true ->
  hasReceivedData s = true ->
  posts q w es = 0%nat.
Proof.
  intros Hs Hc Hd.
  destruct (run_query es w s Hs Hc) as (s' & _ & Hc' & _ & Hp & Hd' & _).
  specialize (Hd' Hd).
  assert (asked s' = false) as Ha.
  { destruct s' as [qu lo cl hrd cmp acc fb]; simpl in Hd'; subst hrd.
    unfold consistent, asked in *; simpl in *.
    destruct cl, cmp, fb; simpl in *; try discriminate Hc'; reflexivity. }
  rewrite Ha in Hp. simpl in Hp. lia.
Qed.

Lemma replies_app (es1 es2 : list Event) (w : World) :
  replies q w (es1 ++ es2) = (replies q w es1 + replies q (run w es1) es2)%nat.
Proof.
  revert w; induction es1 as [|e es1 IH]; intros w; [reflexivity|].
  simpl. rewrite IH. unfold run. simpl. lia.
Qed.

Lemma posts_app (es1 es2 : list Event) (w : World) :
  posts q w (es1 ++ es2) = (posts q w es1 + posts q (run w es1) es2)%nat.
Proof.
  revert w; induction es1 as [|e es1 IH]; intros w; [reflexivity|].
  simpl. rewrite IH. unfold run. simpl. lia.
Qed.

(** A callback of a query that appends an assistant message appends the
    only one: the query is over and appends nothing afterwards. *)
Lemma own_reply (w : World) (s : Stream) (e : Event) (m : Message) (es : list Event) :
  streams w !! q = Some s ->
  consistent s = true ->
  owned_by q e = true ->
  messages (host (step w e)) = (messages (host w) ++ [m])%list ->
  is_bot m = true ->
  replies q w (e :: es) = 1%nat
  /\ exists s1, streams (step w e) !! q = Some s1 /\ finished s1 = true.
Proof.
  intros Hs Hc Ho Hm Hb.
  destruct (own_step w e s Ho Hs Hc) as (s1 & Hs1 & Hc1 & _ & Hr & _).
  assert (Hn : count_assistant (step w e) = S (count_assistant w)).
  { unfold count_assistant, assistant. rewrite Hm, List.filter_app, length_app.
    simpl. rewrite Hb. simpl. lia. }
  assert (Hf : finished s1 = true).
  { unfold live in Hr. destruct (finished s1); [reflexivity|].
    destruct (finished s); simpl in Hr; lia. }
  split; [|exists s1; auto].
  cbn [replies]. rewrite Ho, Hn, (no_reply_when_finished es _ s1 Hs1 Hc1 Hf). lia.
Qed.

(** A callback of a query that ends the query without a message: nothing
    is appended then or later. *)
Lemma own_silence (w : World) (s s1 : Stream) (e : Event) (es : list Event) :
  streams w !! q = Some s ->
  consistent s = true ->
  owned_by q e = true ->
  messages (host (step w e)) = messages (host w) ->
  streams (step w e) !! q = Some s1 ->
  finished s1 = true ->
  replies q w (e :: es) = 0%nat.
Proof.
  intros Hs Hc Ho Hm Hs1 Hf.
  destruct (own_step w e s Ho Hs Hc) as (s2 & Hs2 & Hc2 & _).
  rewrite Hs1 in Hs2. injection Hs2 as <-.
  cbn [replies]. rewrite Ho. unfold count_assistant at 1 2. rewrite Hm.
  rewrite (no_reply_when_finished es _ s1 Hs1 Hc2 Hf). lia.
Qed.

(** Events of the page and of other queries leave query [q] alone. *)
Lemma run_keeps_stream (es : list Event) :
  forall (w : World) (s : Stream),
    forallb (fun e => negb (owned_by q e)) es = true ->
    streams w !! q = Some s ->
    streams (run w es) !! q = Some s
    /\ replies q w es = 0%nat /\ posts q w es = 0%nat.
Proof.
  induction es as [|e es IH]; intros w s Hall Hs; [auto|].
  simpl in Hall. apply andb_true_iff in Hall as [He Hall].
  apply negb_true_iff in He.
  rewrite run_cons. simpl. rewrite He.
  apply IH; [assumption|].
  apply step_keeps_stream; [apply not_owned, He|assumption].
Qed.

End OneQuery.

(** [consistent] holds of every query of the page, at all times. *)
Lemma step_consistent (w : World) (e : Event) :
  (forall q s, streams w !! q = Some s -> consistent s = true) ->
  forall q s, streams (step w e) !! q = Some s -> consistent s = true.
Proof.
  intros Hw q s1 Hs1.
  destruct (owned_by q e) eqn:Ho.
  - destruct (streams w !! q) as [s|] eqn:Hs.
    + destruct (own_step q w e s Ho Hs (Hw q s Hs)) as (s' & Hs' & Hc' & _).
      rewrite Hs' in Hs1. injection Hs1 as <-. exact Hc'.
    + assert (step w e = w) as E.
      { destruct e as [now arg|v|l|a now d|a|a now r|eager];
          unfold owned_by in Ho; simpl in Ho; try discriminate;
          apply Nat.eqb_eq in Ho; subst a; simpl; rewrite Hs; reflexivity. }
      rewrite E, Hs in Hs1. discriminate Hs1.
  - destruct e as [now arg|v|l|a now d|a|a now r|eager];
      try (apply (Hw q s1); exact Hs1).
    + simpl in Hs1. unfold handleSend in Hs1.
      destruct (blank _); [apply (Hw q s1 Hs1)|]. simpl in Hs1.
      apply lookup_app_Some in Hs1 as [Hs1|[_ Hs1]]; [apply (Hw q s1 Hs1)|].
      destruct (q - length (streams w))%nat; [|discriminate Hs1].
      injection Hs1 as <-. reflexivity.
    + rewrite (step_callback_other_stream w (Frame a now d) a q eq_refl) in Hs1;
        [apply (Hw q s1 Hs1)|].
      intros ->. unfold owned_by in Ho. simpl in Ho.
      rewrite Nat.eqb_refl in Ho. discriminate Ho.
    + rewrite (step_callback_other_stream w (Failure a) a q eq_refl) in Hs1;
        [apply (Hw q s1 Hs1)|].
      intros ->. unfold owned_by in Ho. simpl in Ho.
      rewrite Nat.eqb_refl in Ho. discriminate Ho.
    + rewrite (step_callback_other_stream w (Response a now r) a q eq_refl) in Hs1;
        [apply (Hw q s1 Hs1)|].
      intros ->. unfold owned_by in Ho. simpl in Ho.
      rewrite Nat.eqb_refl in Ho. discriminate Ho.
Qed.

Lemma run_consistent (es : list Event) (q : nat) (s : Stream) :
  streams (run mounted es) !! q = Some s -> consistent s = true.
Proof.
  revert q s. induction es as [|e es IH] using rev_ind; intros q s.
  - simpl. rewrite lookup_nil. discriminate.
  - rewrite run_snoc. apply step_consistent. exact IH.
Qed.

Lemma handleSend_opens (now : Z) (text : string) (w : World) :
  blank text = false ->
  streams (handleSend now text w) !! length (streams w)
  = Some (open_stream text (userLocation (host w))).
Proof.
  intros Hb. unfold handleSend. rewrite Hb. simpl.
  apply list_lookup_middle. reflexivity.
Qed.

(** ** Replies *)

(** A chunk and then a failure of the transport: the query is over and
    nothing was appended. *)
Lemma no_reply_after_partial_stream : ~ one_reply_per_query.
Proof.
  intros H.
  specialize (H mounted 10 "q" [Frame 0 20 (Chunk "x"); Failure 0]
                (mkStream "q" None true true false "x" NoFetch)
                eq_refl eq_refl eq_refl).
  vm_compute in H. discriminate H.
Qed.

(** C2 (as the code has it). Along any run, the callbacks of an accepted
    query append at most one assistant message, and the query is over
    when they have.  A [complete] frame with a result and an [error]
    frame, handled while the source is open, append one (the reply, or
    "错误: " followed by the text of the frame), and so does the response
    or the failure of the fallback (the reply, or the notice that the
    service is unavailable): the count is then one whatever follows.  A
    failure of the transport after a frame was received ends the query
    without a message, then or later: it clears the thinking flag and
    does nothing else. *)
Theorem replies_of_query
  (w : World) (now : Z) (text : string) (es es' : list Event) :
  blank text = false ->
  let q := length (streams w) in
  let w0 := handleSend now text w in
  let w1 := run w0 es in
  (replies q w0 es <= 1)%nat
  /\ exists s,
      streams w1 !! q = Some s
      /\ (replies q w0 es = 1%nat -> finished s = true)
      /\ (closed s = false ->
          forall t r,
            messages (host (step w1 (Frame q t (Complete r))))
            = (messages (host w1) ++ [mkMessage (t + 1) bot (reply r)])%list
            /\ replies q w0 (es ++ Frame q t (Complete r) :: es') = 1%nat)
      /\ (closed s = false ->
          forall t m,
            messages (host (step w1 (Frame q t (ErrorEvent m))))
            = (messages (host w1) ++ [mkMessage (t + 1) bot ("错误: " ++ m)])%list
            /\ replies q w0 (es ++ Frame q t (ErrorEvent m) :: es') = 1%nat)
      /\ (fallback s = Pending ->
          forall t r,
            messages (host (step w1 (Response q t r)))
            = (messages (host w1)
               ++ [mkMessage (t + 1) bot
                     match r with Some data => reply data | None => unavailable end])%list
            /\ replies q w0 (es ++ Response q t r :: es') = 1%nat)
      /\ (closed s = false -> hasReceivedData s = true ->
          host (step w1 (Failure q)) = setIsThinking false (host w1)
          /\ network (step w1 (Failure q)) = network w1
          /\ streams (step w1 (Failure q)) !! q = Some (set_closed s)
          /\ finished (set_closed s) = true
          /\ replies q w0 (es ++ Failure q :: es') = 0%nat).
Proof.
  intros Hb q w0 w1.
  destruct (run_query q es w0 (open_stream text (userLocation (host w)))
              (handleSend_opens now text w Hb) eq_refl)
    as (s & Hs & Hc & Hr & _).
  fold q in Hs. fold w0 in Hs. fold w1 in Hs.
  change (bit (live (open_stream text (userLocation (host w))))) with 1%nat in Hr.
  pose proof (lookup_lt_Some _ _ _ Hs) as Hlt.
  assert (Hlive : live s = true -> replies q w0 es = 0%nat).
  { intros E. rewrite E in Hr. simpl in Hr. lia. }
  assert (Hown : forall e, owner e = Some q -> owned_by q e = true).
  { intros e E. unfold owned_by. rewrite E. apply Nat.eqb_refl. }
  split; [lia|]. exists s. split; [exact Hs|].
  split.
  { intros E. rewrite E in Hr. unfold live in Hr.
    destruct (finished s); [reflexivity|simpl in Hr; lia]. }
  split; [|split; [|split]].
  - intros Hcl t r.
    assert (Hm : messages (host (step w1 (Frame q t (Complete r))))
                 = (messages (host w1) ++ [mkMessage (t + 1) bot (reply r)])%list).
    { simpl. rewrite Hs, Hcl. reflexivity. }
    split; [exact Hm|].
    rewrite replies_app, Hlive by (unfold live, finished; rewrite Hcl; reflexivity).
    apply (own_reply q w1 s _ _ es' Hs Hc (Hown (Frame q t (Complete r)) eq_refl)
             Hm eq_refl).
  - intros Hcl t m.
    assert (Hm : messages (host (step w1 (Frame q t (ErrorEvent m))))
                 = (messages (host w1) ++ [mkMessage (t + 1) bot ("错误: " ++ m)])%list).
    { simpl. rewrite Hs, Hcl. reflexivity. }
    split; [exact Hm|].
    rewrite replies_app, Hlive by (unfold live, finished; rewrite Hcl; reflexivity).
    apply (own_reply q w1 s _ _ es' Hs Hc (Hown (Frame q t (ErrorEvent m)) eq_refl)
             Hm eq_refl).
  - intros Hp t r.
    assert (Hm : messages (host (step w1 (Response q t r)))
                 = (messages (host w1)
                    ++ [mkMessage (t + 1) bot
                          match r with Some data => reply data | None => unavailable end])%list).
    { simpl. rewrite Hs, Hp. reflexivity. }
    split; [exact Hm|].
    rewrite replies_app, Hlive
      by (unfold live, finished, pending; rewrite Hp; apply negb_true_iff, andb_false_r).
    apply (own_reply q w1 s _ _ es' Hs Hc (Hown (Response q t r) eq_refl)
             Hm eq_refl).
  - intros Hcl Hd.
    assert (Hn : isCompleted s = false /\ fallback s = NoFetch).
    { destruct s as [qu lo cl hrd cmp acc fb]; simpl in Hcl, Hd; subst cl hrd.
      unfold consistent, asked in Hc; simpl in Hc.
      destruct cmp, fb; simpl in Hc; try discriminate Hc; auto. }
    destruct Hn as [Hcmp Hfb].
    assert (He : onerror (host w1, s) = (setIsThinking false (host w1), set_closed s, None)).
    { unfold onerror. simpl. rewrite Hd, Hcmp. reflexivity. }
    assert (H1 : host (step w1 (Failure q)) = setIsThinking false (host w1)).
    { simpl. rewrite Hs, Hcl, He. reflexivity. }
    assert (H3 : streams (step w1 (Failure q)) !! q = Some (set_closed s)).
    { simpl. rewrite Hs, Hcl, He. simpl. apply list_lookup_insert_eq, Hlt. }
    assert (H4 : finished (set_closed s) = true).
    { unfold finished, pending. simpl. rewrite Hfb. reflexivity. }
    split; [exact H1|].
    split; [simpl; rewrite Hs, Hcl, He; simpl; apply app_nil_r|].
    split; [exact H3|]. split; [exact H4|].
    rewrite replies_app, Hlive by (unfold live, finished; rewrite Hcl; reflexivity).
    apply (own_silence q w1 s (set_closed s) (Failure q) es' Hs Hc
             (Hown (Failure q) eq_refl)); auto.
    rewrite H1. reflexivity.
Qed.

Lemma replies_of_query_witness :
  let w0 := handleSend 10 "q" mounted in
  let es' := [Frame 0 40 (Chunk "late"); Failure 0; Response 0 50 None] in
  replies 0 w0 ([Frame 0 20 (Chunk "x")] ++ Failure 0 :: es') = 0%nat
  /\ replies 0 w0 ([Frame 0 20 (Chunk "x")] ++ Frame 0 30 (ErrorEvent "busy") :: es') = 1%nat
  /\ replies 0 w0 ([Failure 0] ++ Response 0 30 None :: es') = 1%nat.
Proof.
  cbv zeta.
  destruct (replies_of_query mounted 10 "q" [Frame 0 20 (Chunk "x")]
              [Frame 0 40 (Chunk "late"); Failure 0; Response 0 50 None] eq_refl)
    as (_ & s & Hs & _ & _ & He & _ & Hf).
  vm_compute in Hs. injection Hs as <-.
  destruct (replies_of_query mounted 10 "q" [Failure 0]
              [Frame 0 40 (Chunk "late"); Failure 0; Response 0 50 None] eq_refl)
    as (_ & s & Hs & _ & _ & _ & Hp & _).
  vm_compute in Hs. injection Hs as <-.
  split; [exact (proj2 (proj2 (proj2 (proj2 (Hf eq_refl eq_refl))))) |].
  split; [exact (proj2 (He eq_refl 30 "busy"))|].
  exact (proj2 (Hp eq_refl 30 None)).
Defined.

(** ** The fallback *)

(** An [error] frame as the first event of the stream: no request. *)
Lemma error_frame_does_not_fall_back : ~ fallback_on_first_error.
Proof.
  intros H.
  specialize (H mounted 10 "q" (Frame 0 20 (ErrorEvent "x")) [] eq_refl
                (error_frame 0 20 "x")).
  vm_compute in H. discriminate H.
Qed.

(** C3 (as the code has it). When the transport fails before any frame of
    the query was received, one request is sent to the fallback endpoint,
    with the question of the query and the location of the submitting
    render, and the callbacks of the query send no other request whatever
    follows: the source is closed, so no second failure is dispatched.
    An [error] frame never starts the fallback: it appends the message
    "错误: " followed by the text of the frame. *)
Theorem fallback_once
  (w : World) (now : Z) (text : string) (es0 es : list Event) :
  blank text = false ->
  let q := length (streams w) in
  let w0 := handleSend now text w in
  forallb (fun e => negb (owned_by q e)) es0 = true ->
  network (run w0 (es0 ++ [Failure q]))
  = (network (run w0 es0) ++ [PostQuery text true (userLocation (host w))])%list
  /\ posts q w0 (es0 ++ Failure q :: es) = 1%nat
  /\ (forall t m,
        posts q w0 (es0 ++ Frame q t (ErrorEvent m) :: es) = 0%nat
        /\ messages (host (run w0 (es0 ++ [Frame q t (ErrorEvent m)])))
           = (messages (host (run w0 es0))
              ++ [mkMessage (t + 1) bot ("错误: " ++ m)])%list).
Proof.
  intros Hb q w0 Hall.
  destruct (run_keeps_stream q es0 w0 _ Hall (handleSend_opens now text w Hb))
    as (Hs & _ & Hp0).
  fold q in Hs. fold w0 in Hs.
  pose proof (lookup_lt_Some _ _ _ Hs) as Hlt.
  split; [|split].
  - rewrite run_snoc. simpl. rewrite Hs. reflexivity.
  - rewrite posts_app, Hp0. cbn [posts].
    unfold owned_by; cbn [owner]; rewrite Nat.eqb_refl.
    set (w1 := step (run w0 es0) (Failure q)).
    assert (Hs1 : streams w1 !! q
                  = Some (mkStream text (userLocation (host w)) true false false ""
                                   Pending)).
    { subst w1. simpl. rewrite Hs. simpl. apply list_lookup_insert_eq, Hlt. }
    assert (Hg : (count_fallbacks w1 - count_fallbacks (run w0 es0) = 1)%nat).
    { subst w1. unfold count_fallbacks. simpl. rewrite Hs. simpl.
      unfold fallbacks. rewrite List.filter_app, length_app. simpl. lia. }
    destruct (run_query q es w1 _ Hs1 eq_refl) as (s' & _ & _ & _ & Hp & _).
    simpl in Hp. destruct (asked s'); simpl in Hp; lia.
  - intros t m. split.
    + rewrite posts_app, Hp0. cbn [posts].
      unfold owned_by; cbn [owner]; rewrite Nat.eqb_refl.
      set (w1 := step (run w0 es0) (Frame q t (ErrorEvent m))).
      assert (Hs1 : streams w1 !! q
                    = Some (mkStream text (userLocation (host w)) true true true ""
                                     NoFetch)).
      { subst w1. simpl. rewrite Hs. simpl. apply list_lookup_insert_eq, Hlt. }
      assert (Hg : (count_fallbacks w1 - count_fallbacks (run w0 es0) = 0)%nat).
      { subst w1. unfold count_fallbacks. simpl. rewrite Hs. simpl. lia. }
      destruct (run_query q es w1 _ Hs1 eq_refl) as (s' & _ & Hc & _ & Hp & Hd & _).
      specialize (Hd eq_refl). simpl in Hp.
      assert (asked s' = false) as Ha.
      { destruct s' as [qu lo cl hrd cmp acc fb]; simpl in Hd; subst hrd.
        unfold consistent, asked in *; simpl in *.
        destruct cl, cmp, fb; simpl in *; try discriminate Hc; reflexivity. }
      rewrite Ha in Hp. simpl in Hp. lia.
    + rewrite run_snoc. simpl. rewrite Hs. reflexivity.
Qed.

Lemma fallback_once_witness :
  posts 0 (handleSend 10 "q" mounted)
    ([Typed "next"; Timer false] ++ Failure 0 :: [Failure 0; Response 0 20 None; Failure 0])
  = 1%nat.
Proof.
  exact (proj1 (proj2 (fallback_once mounted 10 "q" [Typed "next"; Timer false]
                         [Failure 0; Response 0 20 None; Failure 0]
                         eq_refl eq_refl))).
Defined.

(** A chunk and then a failure of the transport: no message is appended. *)
Lemma transport_failure_appends_nothing : ~ failure_notice_after_chunk.
Proof.
  intros H.
  destruct (H mounted 10 "q" 20 "x" (Failure 0) eq_refl (transport_error 0))
    as [Hm _].
  vm_compute in Hm. discriminate Hm.
Qed.

(** A query that is over is left alone: the browser runs none of its
    callbacks any more. *)
Lemma finished_inert (w : World) (q : nat) (s : Stream) (es : list Event) :
  streams w !! q = Some s ->
  finished s = true ->
  forallb (owned_by q) es = true ->
  run w es = w.
Proof.
  intros Hs Hf. induction es as [|e es IH]; intros Hall; [reflexivity|].
  simpl in Hall. apply andb_true_iff in Hall as [Ho Hall].
  rewrite run_cons.
  assert (step w e = w) as ->; [|apply IH, Hall].
  unfold finished, pending in Hf. apply andb_true_iff in Hf as [Hcl Hp].
  destruct e as [now arg|v|l|a now d|a|a now r|eager];
    unfold owned_by in Ho; simpl in Ho; try discriminate;
    apply Nat.eqb_eq in Ho; subst a; simpl; rewrite Hs.
  - rewrite Hcl. reflexivity.
  - rewrite Hcl. reflexivity.
  - destruct (fallback s); try reflexivity. discriminate Hp.
Qed.

(** C4 (as the code has it). After a chunk of an open query, a failure of
    the transport closes the source and clears the thinking flag, and
    nothing else: no message is appended and the buffer keeps the partial
    text.  An [error] frame closes the source, marks the query completed,
    clears the typewriter and appends "错误: " followed by the text of the
    frame.  In both cases no request is sent and the query is over: its
    callbacks append no message and send no request afterwards, and a
    later frame, failure or response of the query changes nothing. *)
Theorem failure_after_chunk
  (w : World) (q : nat) (s : Stream) (t : Z) (content : string) (es : list Event) :
  streams w !! q = Some s ->
  closed s = false ->
  consistent s = true ->
  let w1 := step w (Frame q t (Chunk content)) in
  let s1 := set_accumulatedText (accumulatedText s ++ content) (set_hasReceivedData s) in
  streams w1 !! q = Some s1
  /\ host (step w1 (Failure q)) = setIsThinking false (host w1)
  /\ network (step w1 (Failure q)) = network w1
  /\ streams (step w1 (Failure q)) !! q = Some (set_closed s1)
  /\ finished (set_closed s1) = true
  /\ (forall t' m,
        host (step w1 (Frame q t' (ErrorEvent m)))
        = (host w1 |> clearTyping
                   |> setMessages (push (mkMessage (t' + 1) bot ("错误: " ++ m)))
                   |> setIsThinking false)
        /\ network (step w1 (Frame q t' (ErrorEvent m))) = network w1)
  /\ posts q w1 es = 0%nat
  /\ (forall t' m,
        streams (step w1 (Frame q t' (ErrorEvent m))) !! q
        = Some (set_closed (set_isCompleted s1))
        /\ closed (set_closed (set_isCompleted s1)) = true
        /\ finished (set_closed (set_isCompleted s1)) = true)
  /\ (forall e,
        stream_error q e ->
        replies q (step w1 e) es = 0%nat
        /\ posts q (step w1 e) es = 0%nat
        /\ (forallb (owned_by q) es = true -> run (step w1 e) es = step w1 e)).
Proof.
  intros Hs Hcl Hc w1 s1.
  pose proof (lookup_lt_Some _ _ _ Hs) as Hlt.
  assert (Hs1 : streams w1 !! q = Some s1).
  { subst w1. simpl. rewrite Hs, Hcl. simpl.
    apply list_lookup_insert_eq, Hlt. }
  assert (Hc1 : consistent s1 = true /\ isCompleted s1 = false
                /\ fallback s1 = NoFetch /\ closed s1 = false).
  { subst s1. destruct s as [qu lo cl hrd cmp acc fb]; simpl in *; subst cl.
    unfold consistent, asked in *; simpl in *.
    destruct hrd, cmp, fb; simpl in *; try discriminate Hc; auto. }
  destruct Hc1 as (Hc1 & Hcmp & Hfb & Hcl1).
  pose proof (lookup_lt_Some _ _ _ Hs1) as Hlt1.
  split; [exact Hs1|].
  assert (He : onerror (host w1, s1) = (setIsThinking false (host w1), set_closed s1, None)).
  { unfold onerror. subst s1. simpl in Hcmp |- *. rewrite Hcmp. reflexivity. }
  assert (Hf2 : streams (step w1 (Failure q)) !! q = Some (set_closed s1)).
  { simpl; rewrite Hs1, Hcl1, He; simpl; apply list_lookup_insert_eq, Hlt1. }
  assert (Hfin2 : finished (set_closed s1) = true).
  { unfold finished, pending; simpl in Hfb |- *; rewrite Hfb; reflexivity. }
  assert (Hf3 : forall t' m,
             streams (step w1 (Frame q t' (ErrorEvent m))) !! q
             = Some (set_closed (set_isCompleted s1))).
  { intros t' m. simpl. rewrite Hs1, Hcl1. simpl. apply list_lookup_insert_eq, Hlt1. }
  assert (Hfin3 : finished (set_closed (set_isCompleted s1)) = true).
  { unfold finished, pending; simpl in Hfb |- *; rewrite Hfb; reflexivity. }
  split; [simpl; rewrite Hs1, Hcl1, He; reflexivity|].
  split; [simpl; rewrite Hs1, Hcl1, He; simpl; apply app_nil_r|].
  split; [exact Hf2|]. split; [exact Hfin2|].
  split; [intros t' m; simpl; rewrite Hs1, Hcl1; split; reflexivity|].
  split; [apply (no_fallback_after_data q es w1 s1 Hs1 Hc1); reflexivity|].
  split; [intros t' m; split; [apply Hf3|split; [reflexivity|exact Hfin3]]|].
  assert (Hover : forall w2 s2,
             streams w2 !! q = Some s2 -> consistent s2 = true ->
             finished s2 = true -> hasReceivedData s2 = true ->
             replies q w2 es = 0%nat /\ posts q w2 es = 0%nat
             /\ (forallb (owned_by q) es = true -> run w2 es = w2)).
  { intros w2 s2 H2 C2 F2 D2.
    split; [apply (no_reply_when_finished q es w2 s2 H2 C2 F2)|].
    split; [apply (no_fallback_after_data q es w2 s2 H2 C2 D2)|].
    apply (finished_inert w2 q s2 es H2 F2). }
  intros e [|t' m].
  - apply (Hover _ _ Hf2); [|exact Hfin2|reflexivity].
    subst s1. destruct s as [qu lo cl hrd cmp acc fb]; simpl in *; subst.
    reflexivity.
  - apply (Hover _ _ (Hf3 t' m)); [|exact Hfin3|reflexivity].
    subst s1. destruct s as [qu lo cl hrd cmp acc fb]; simpl in *; subst.
    reflexivity.
Qed.

Lemma failure_after_chunk_witness :
  let w1 := step (handleSend 10 "q" mounted) (Frame 0 20 (Chunk "x")) in
  messages (host (step w1 (Failure 0))) = messages (host w1)
  /\ typingMessage (host (step w1 (Failure 0))) = "x"
  /\ posts 0 w1 [Failure 0; Response 0 30 None] = 0%nat
  /\ closed (set_closed (set_isCompleted
                           (set_accumulatedText "x" (set_hasReceivedData (open_stream "q" None)))))
     = true
  /\ replies 0 (step w1 (Frame 0 25 (ErrorEvent "busy"))) [Failure 0; Response 0 30 None]
     = 0%nat.
Proof.
  destruct (failure_after_chunk (handleSend 10 "q" mounted) 0
              (open_stream "q" None) 20 "x" [Failure 0; Response 0 30 None]
              eq_refl eq_refl eq_refl) as (_ & Hh & _ & _ & _ & _ & Hp & Hc & Hr).
  split; [rewrite Hh; reflexivity|].
  split; [rewrite Hh; reflexivity|].
  split; [exact Hp|].
  split; [exact (proj1 (proj2 (Hc 25 "busy")))|].
  exact (proj1 (Hr _ (error_frame 0 25 "busy"))).
Defined.

(** ** The running text *)

(** While its source stays open, the running text of a query grows by the
    chunks delivered for it, in the order of delivery, whatever else
    happens on the page in between. *)
Lemma run_accumulates (q : nat) (es : list Event) :
  forall (w : World) (s : Stream),
    streams w !! q = Some s ->
    closed s = false ->
    forallb (keeps_open q) es = true ->
    exists s',
      streams (run w es) !! q = Some s'
      /\ closed s' = false
      /\ accumulatedText s' = accumulatedText s ++ cat (chunk_contents q es).
Proof.
  induction es as [|e es IH]; intros w s Hs Hcl Hall.
  - exists s. simpl. rewrite append_nil_r. auto.
  - simpl in Hall. apply andb_true_iff in Hall as [He Hall].
    rewrite run_cons.
    assert (exists s1, streams (step w e) !! q = Some s1 /\ closed s1 = false
                       /\ accumulatedText s1 = accumulatedText s ++ cat (chunk_of q e))
      as (s1 & Hs1 & Hcl1 & Hacc1).
    { pose proof (lookup_lt_Some _ _ _ Hs) as Hlt.
      destruct (owned_by q e) eqn:Ho.
      - destruct e as [now arg|v|l|a now d|a|a now r|eager];
          unfold owned_by in Ho; simpl in Ho; try discriminate;
          apply Nat.eqb_eq in Ho; subst a; simpl in He |- *;
          rewrite ?Nat.eqb_refl in *; rewrite Hs.
        + rewrite Hcl. simpl. rewrite list_lookup_insert_eq by assumption.
          destruct d; try discriminate He; eexists; split; try reflexivity;
            simpl; rewrite ?append_nil_r; auto.
        + discriminate He.
        + destruct (fallback s); simpl; rewrite ?list_lookup_insert_eq by assumption;
            eexists; (split; [first [reflexivity | exact Hs]|]);
            simpl; rewrite ?append_nil_r; auto.
      - exists s. split; [apply step_keeps_stream; [apply not_owned, Ho|exact Hs]|].
        split; [exact Hcl|].
        assert (chunk_of q e = []) as ->; [|simpl; rewrite append_nil_r; reflexivity].
        destruct e as [now arg|v|l|a now d|a|a now r|eager]; try reflexivity.
        unfold owned_by in Ho; simpl in Ho. simpl. rewrite Ho. destruct d; reflexivity. }
    destruct (IH _ _ Hs1 Hcl1 Hall) as (s' & Hs' & Hcl' & Hacc').
    exists s'. split; [exact Hs'|]. split; [exact Hcl'|].
    rewrite Hacc', Hacc1. unfold chunk_contents. simpl.
    rewrite cat_app, append_assoc. reflexivity.
Qed.

(** C8. For an accepted query, after any run that leaves its source open
    and then one more chunk, the running text handed to the buffer is the
    concatenation, in order of delivery, of the contents of all the chunks
    delivered for the query. *)
Theorem chunks_concatenate
  (w : World) (now : Z) (text : string) (es : list Event) (t : Z) (content : string) :
  blank text = false ->
  let q := length (streams w) in
  forallb (keeps_open q) es = true ->
  let w' := run (handleSend now text w) (es ++ [Frame q t (Chunk content)]) in
  exists s,
    streams w' !! q = Some s
    /\ accumulatedText s = cat (chunk_contents q es ++ [content])
    /\ typingMessage (host w') = cat (chunk_contents q es ++ [content])
    /\ isTyping (host w') = true.
Proof.
  intros Hb q Hall w'.
  destruct (run_accumulates q es (handleSend now text w) _
              (handleSend_opens now text w Hb) eq_refl Hall)
    as (s1 & Hs1 & Hcl1 & Hacc1).
  simpl in Hacc1.
  pose proof (lookup_lt_Some _ _ _ Hs1) as Hlt.
  subst w'. rewrite run_snoc. simpl. fold q. rewrite Hs1, Hcl1. simpl.
  rewrite list_lookup_insert_eq by assumption.
  eexists. split; [reflexivity|]. simpl.
  rewrite cat_app, Hacc1. unfold cat at 2 4. simpl. rewrite append_nil_r. auto.
Qed.

Lemma chunks_concatenate_witness :
  let w' := run (handleSend 10 "济南市家电以旧换新补贴标准是多少？" mounted)
                ([Frame 0 20 (Chunk "根据政策，"); Timer false; Typed "x"]
                 ++ [Frame 0 30 (Chunk "补贴比例为10%。")]) in
  typingMessage (host w') = "根据政策，补贴比例为10%。".
Proof.
  destruct (chunks_concatenate mounted 10 "济南市家电以旧换新补贴标准是多少？"
              [Frame 0 20 (Chunk "根据政策，"); Timer false; Typed "x"]
              30 "补贴比例为10%。" eq_refl eq_refl)
    as (s & _ & _ & Ht & _).
  exact Ht.
Defined.

(** ** Scenarios *)

(** Two chunks and a [complete] frame: one reply, built from the payload. *)
Example scenario_stream_completes :
  let w := run mounted
             [Submit 100 (Some scenario_question);
              Frame 0 110 (Chunk "根据政策，");
              Frame 0 120 (Chunk "补贴比例为10%。");
              Frame 0 130
                (Complete (mkResult "根据政策，补贴比例为10%。" (Some 0.92%float)
                             (Some [mkSource "细则.pdf" (Some 0.95%float)])))] in
  messages (host w)
  = [mkMessage 1 bot greeting;
     mkMessage 100 user scenario_question;
     mkMessage 131 bot
       ("根据政策，补贴比例为10%。" ++ nl ++ nl ++ "置信度: 92%" ++ nl ++ nl ++
        "参考来源:" ++ nl ++ "1. 细则.pdf (相关度: 95%)")]
  /\ typingMessage (host w) = ""
  /\ isThinking (host w) = false
  /\ network w = [StreamQuery scenario_question None None None].
Proof. vm_compute. repeat split. Qed.

(** The transport fails at once and the fallback answers: the reply shows
    the answer and 100%, without a list of sources. *)
Example scenario_fallback_answers :
  let w := run mounted
             [Submit 100 (Some scenario_question);
              Failure 0;
              Response 0 140 (Some (mkResult "购买¥3000冰箱补贴¥300" (Some 1%float)
                                      (Some [])))] in
  messages (host w)
  = [mkMessage 1 bot greeting;
     mkMessage 100 user scenario_question;
     mkMessage 141 bot ("购买¥3000冰箱补贴¥300" ++ nl ++ nl ++ "置信度: 100%")]
  /\ network w = [StreamQuery scenario_question None None None;
                  PostQuery scenario_question true None].
Proof. vm_compute. repeat split. Qed.

(** One chunk and then a failure of the transport: no reply, no fallback,
    and the partial text stays in the buffer. *)
Example scenario_partial_stream_fails :
  let w := run mounted
             [Submit 100 (Some scenario_question);
              Frame 0 110 (Chunk "根据政策，");
              Failure 0] in
  messages (host w)
  = [mkMessage 1 bot greeting; mkMessage 100 user scenario_question]
  /\ typingMessage (host w) = "根据政策，"
  /\ isTyping (host w) = true
  /\ isThinking (host w) = false
  /\ network w = [StreamQuery scenario_question None None None].
Proof. vm_compute. repeat split. Qed.

(** A blank submission changes nothing. *)
Example scenario_blank_submission :
  run mounted [Submit 100 (Some "  "); Submit 101 None] = mounted.
Proof. reflexivity. Qed.

(** * Further properties *)

(** ** The chat module along a run *)

Lemma step_keeps_context (w : World) (e : Event) (q : nat) (s : Stream) :
  streams w !! q = Some s ->
  exists s',
    streams (step w e) !! q = Some s'
    /\ question s' = question s /\ location s' = location s.
Proof.
  intros Hs. pose proof (lookup_lt_Some _ _ _ Hs) as Hlt.
  destruct (owned_by q e) eqn:Ho.
  - destruct e as [now arg|v|l|a now d|a|a now r|eager];
      unfold owned_by in Ho; simpl in Ho; try discriminate;
      apply Nat.eqb_eq in Ho; subst a; simpl; rewrite Hs.
    + destruct (closed s); [exists s; auto|]. simpl.
      rewrite list_lookup_insert_eq by assumption.
      eexists; split; [reflexivity|]. destruct d; auto.
    + destruct (closed s); [exists s; auto|]. simpl.
      rewrite list_lookup_insert_eq by assumption.
      eexists; split; [reflexivity|]. unfold onerror; simpl.
      destruct (hasReceivedData s), (isCompleted s); auto.
    + destruct (fallback s); try (exists s; auto; fail). simpl.
      rewrite list_lookup_insert_eq by assumption.
      eexists; split; [reflexivity|]. auto.
  - exists s. split; [|auto].
    apply step_keeps_stream; [apply not_owned, Ho|exact Hs].
Qed.

(** X1. Along any run the transcript and the request log only grow at
    their end, no query disappears, and the question and the location
    that a query has captured at its submission never change. *)
Theorem run_append_only (w : World) (es : list Event) :
  messages (host w) `prefix_of` messages (host (run w es))
  /\ network w `prefix_of` network (run w es)
  /\ (forall q s,
        streams w !! q = Some s ->
        exists s',
          streams (run w es) !! q = Some s'
          /\ question s' = question s /\ location s' = location s).
Proof.
  revert w. induction es as [|e es IH]; intros w.
  - split; [reflexivity|]. split; [reflexivity|]. intros q s Hs. exists s. auto.
  - rewrite run_cons. destruct (IH (step w e)) as (Hm & Hn & Hq).
    split; [etransitivity; [apply step_messages_prefix|exact Hm]|].
    split; [etransitivity; [apply step_network_prefix|exact Hn]|].
    intros q s Hs.
    destruct (step_keeps_context w e q s Hs) as (s1 & Hs1 & Hq1 & Hl1).
    destruct (Hq q s1 Hs1) as (s' & Hs' & Hq' & Hl').
    exists s'. split; [exact Hs'|]. split; congruence.
Qed.




(** X3. Whatever happens on the page, the callbacks of an accepted query
    send at most one fallback request; when they have sent one, the query
    has received no frame and has not completed. *)
Theorem fallback_at_most_once
  (w : World) (now : Z) (text : string) (es : list Event) :
  blank text = false ->
  let q := length (streams w) in
  let w0 := handleSend now text w in
  (posts q w0 es <= 1)%nat
  /\ (posts q w0 es = 1%nat ->
      exists s,
        streams (run w0 es) !! q = Some s
        /\ hasReceivedData s = false /\ isCompleted s = false /\ closed s = true).
Proof.
  intros Hb q w0.
  destruct (run_query q es w0 (open_stream text (userLocation (host w)))
              (handleSend_opens now text w Hb) eq_refl)
    as (s & Hs & Hc & _ & Hp & _).
  simpl in Hp. rewrite Nat.add_0_r in Hp. rewrite Hp.
  split; [destruct (asked s); simpl; lia|].
  intros Ha. exists s. split; [exact Hs|].
  destruct s as [qu lo cl hrd cmp acc fb].
  unfold consistent, asked in *; simpl in *.
  destruct cl, hrd, cmp, fb; simpl in *; try discriminate; auto.
Qed.

Lemma fallback_at_most_once_witness :
  (posts 0 (handleSend 10 "q" mounted)
     [Failure 0; Failure 0; Response 0 20 None; Failure 0] <= 1)%nat.
Proof.
  exact (proj1 (fallback_at_most_once mounted 10 "q"
                  [Failure 0; Failure 0; Response 0 20 None; Failure 0] eq_refl)).
Defined.

Lemma tick_keeps_isThinking (eager : bool) (h : Host) :
  isThinking (tick eager h) = isThinking h.
Proof.
  unfold tick. destruct (typingInterval h); [|reflexivity].
  unfold interval_callback. destruct (_ <? _)%nat; [destruct eager|]; reflexivity.
Qed.

(** One event on a page with a single query: while the query stays live
    the thinking flag is not touched; once it is over nothing touches the
    flag or the query; the event that ends it clears the flag, unless it
    is a [complete] frame without a result. *)
Lemma single_step (w : World) (s : Stream) (e : Event) :
  streams w = [s] ->
  consistent s = true ->
  is_submit e = false ->
  exists s',
    streams (step w e) = [s']
    /\ consistent s' = true
    /\ (finished s' = false ->
        finished s = false /\ isThinking (host (step w e)) = isThinking (host w))
    /\ (finished s = true ->
        s' = s /\ isThinking (host (step w e)) = isThinking (host w))
    /\ (has_result e = true -> finished s = false -> finished s' = true ->
        isThinking (host (step w e)) = false).
Proof.
  intros Hs Hc He.
  destruct e as [t arg|v|l|q t d|q|q t r|eager]; try discriminate He; simpl.
  - exists s. repeat split; auto; congruence.
  - exists s. repeat split; auto; congruence.
  - rewrite Hs. destruct q as [|q]; simpl;
      [|exists s; repeat split; auto; congruence].
    destruct s as [qu lo cl hrd cmp acc fb].
    unfold consistent, finished, pending, asked in *; simpl in *.
    destruct cl; simpl;
      [eexists; split; [rewrite Hs; reflexivity|];
       repeat split; auto; intros; simpl in *; congruence|].
    destruct d, hrd, cmp, fb; simpl in *; try discriminate Hc;
      rewrite ?Hs; simpl; (eexists; split; [reflexivity|]);
      repeat split; simpl; auto; intros; simpl in *; congruence.
  - rewrite Hs. destruct q as [|q]; simpl;
      [|exists s; repeat split; auto; congruence].
    destruct s as [qu lo cl hrd cmp acc fb].
    unfold consistent, finished, pending, asked in *; simpl in *.
    destruct cl; simpl;
      [eexists; split; [rewrite Hs; reflexivity|];
       repeat split; auto; intros; simpl in *; congruence|].
    destruct hrd, cmp, fb; simpl in *; try discriminate Hc;
      rewrite ?Hs; simpl; (eexists; split; [reflexivity|]);
      repeat split; simpl; auto; intros; simpl in *; congruence.
  - rewrite Hs. destruct q as [|q]; simpl;
      [|exists s; repeat split; auto; congruence].
    destruct s as [qu lo cl hrd cmp acc fb].
    unfold consistent, finished, pending, asked in *; simpl in *.
    destruct fb; simpl;
      try (eexists; split; [rewrite Hs; reflexivity|];
           repeat split; auto; intros; simpl in *; congruence).
    destruct cl, hrd, cmp; simpl in *; try discriminate Hc;
      rewrite ?Hs; simpl; (eexists; split; [reflexivity|]);
      repeat split; simpl; auto; intros; simpl in *; congruence.
  - exists s. rewrite tick_keeps_isThinking. repeat split; auto; congruence.
Qed.

Lemma single_run (es : list Event) :
  forall (w : World) (s : Stream),
    streams w = [s] ->
    consistent s = true ->
    forallb (fun e => negb (is_submit e)) es = true ->
    exists s',
      streams (run w es) = [s']
      /\ consistent s' = true
      /\ (finished s' = false ->
          finished s = false /\ isThinking (host (run w es)) = isThinking (host w))
      /\ (finished s = true ->
          s' = s /\ isThinking (host (run w es)) = isThinking (host w))
      /\ (forallb has_result es = true -> finished s = false -> finished s' = true ->
          isThinking (host (run w es)) = false).
Proof.
  induction es as [|e es IH]; intros w s Hs Hc Hall.
  - exists s. simpl. repeat split; auto; congruence.
  - simpl in Hall. apply andb_true_iff in Hall as [He Hall].
    apply negb_true_iff in He. rewrite run_cons.
    destruct (single_step w s e Hs Hc He) as (s1 & Hs1 & Hc1 & A1 & B1 & C1).
    destruct (IH _ _ Hs1 Hc1 Hall) as (s' & Hs' & Hc' & A & B & C).
    exists s'. split; [exact Hs'|]. split; [exact Hc'|].
    split; [|split].
    + intros F. destruct (A F) as [F1 T1]. destruct (A1 F1) as [F0 T0].
      split; congruence.
    + intros F. destruct (B1 F) as [-> T0]. destruct (B F) as [-> T1].
      split; congruence.
    + intros Hr F F'. simpl in Hr. apply andb_true_iff in Hr as [Hr1 Hr].
      destruct (finished s1) eqn:F1.
      * destruct (B eq_refl) as [_ T]. rewrite T. apply C1; auto.
      * apply C; auto.
Qed.

(** X5. When a query is submitted on a page with no other query and
    nothing else is submitted, the thinking indicator goes on and stays
    on while the query is live.  A [complete] frame with a result, an
    [error] frame, a failure of the transport after a frame, and the
    response or failure of the fallback end the query and turn the
    indicator off; a chunk, and a failure of the transport before any
    frame, leave the query live and the indicator on.  A [complete] frame
    without a result ends the query without a message and with the
    indicator still on, and on it stays whatever follows. *)
Theorem thinking_until_finished
  (h : Host) (rs : list Request) (now : Z) (text : string) (es es' : list Event) :
  blank text = false ->
  forallb (fun e => negb (is_submit e)) es = true ->
  forallb (fun e => negb (is_submit e)) es' = true ->
  let w0 := handleSend now text (mkWorld h [] rs) in
  let w := run w0 es in
  let over (w' : World) := exists s', streams w' = [s'] /\ finished s' = true in
  let going (w' : World) := exists s', streams w' = [s'] /\ finished s' = false in
  isThinking (host w0) = true
  /\ exists s,
      streams w = [s]
      /\ (finished s = false -> isThinking (host w) = true)
      /\ (forallb has_result es = true -> isThinking (host w) = negb (finished s))
      /\ (closed s = false ->
          forall t,
            (forall r, isThinking (host (step w (Frame 0 t (Complete r)))) = false
                       /\ over (step w (Frame 0 t (Complete r))))
            /\ (forall m, isThinking (host (step w (Frame 0 t (ErrorEvent m)))) = false
                          /\ over (step w (Frame 0 t (ErrorEvent m))))
            /\ (forall c, isThinking (host (step w (Frame 0 t (Chunk c)))) = true
                          /\ going (step w (Frame 0 t (Chunk c))))
            /\ (over (step w (Frame 0 t CompleteNoResult))
                /\ messages (host (step w (Frame 0 t CompleteNoResult)))
                   = messages (host w)
                /\ isThinking (host (run (step w (Frame 0 t CompleteNoResult)) es')) = true)
            /\ (hasReceivedData s = true ->
                isThinking (host (step w (Failure 0))) = false
                /\ over (step w (Failure 0)))
            /\ (hasReceivedData s = false ->
                isThinking (host (step w (Failure 0))) = true
                /\ going (step w (Failure 0))))
      /\ (fallback s = Pending ->
          forall t r, isThinking (host (step w (Response 0 t r))) = false
                      /\ over (step w (Response 0 t r))).
Proof.
  intros Hb Hall Hall' w0 w over going. subst over going. cbv beta.
  assert (H0 : streams w0 = [open_stream text (userLocation h)]
               /\ isThinking (host w0) = true).
  { subst w0. unfold handleSend. rewrite Hb. split; reflexivity. }
  destruct H0 as [Hs0 Ht0].
  destruct (single_run es w0 _ Hs0 eq_refl Hall) as (s & Hs & Hc & A & _ & C).
  fold w in Hs, A, C.
  split; [exact Ht0|]. exists s. split; [exact Hs|].
  assert (Hlive : finished s = false -> isThinking (host w) = true).
  { intros F. destruct (A F) as [_ T]. congruence. }
  clear A. clearbody w. clear Hs0 Ht0. clearbody w0.
  split; [exact Hlive|].
  split.
  { intros Hr. destruct (finished s) eqn:F; [apply C; auto|apply Hlive; reflexivity]. }
  split.
  - intros Hcl t.
    assert (F : finished s = false) by (unfold finished; rewrite Hcl; reflexivity).
    specialize (Hlive F).
    assert (Hfb : fallback s = NoFetch).
    { destruct s as [qu lo cl hrd cmp acc fb]; simpl in Hcl; subst cl.
      unfold consistent, asked in Hc; simpl in Hc.
      destruct cmp, fb; simpl in Hc; try discriminate Hc;
        try rewrite andb_false_r in Hc; try discriminate Hc; reflexivity. }
    assert (Hcmp : isCompleted s = false).
    { destruct s as [qu lo cl hrd cmp acc fb]; simpl in Hcl; subst cl.
      unfold consistent in Hc; simpl in Hc. destruct cmp; [discriminate Hc|reflexivity]. }
    split; [|split; [|split; [|split; [|split]]]].
    + intros r. simpl. rewrite Hs. simpl. rewrite Hcl. simpl. rewrite ?Hs. simpl.
      split; [reflexivity|]. eexists. split; [reflexivity|].
      unfold finished, pending. simpl. rewrite Hfb. reflexivity.
    + intros m. simpl. rewrite Hs. simpl. rewrite Hcl. simpl. rewrite ?Hs. simpl.
      split; [reflexivity|]. eexists. split; [reflexivity|].
      unfold finished, pending. simpl. rewrite Hfb. reflexivity.
    + intros c. simpl. rewrite Hs. simpl. rewrite Hcl. simpl. rewrite ?Hs. simpl.
      split; [exact Hlive|]. eexists. split; [reflexivity|].
      unfold finished. simpl. rewrite Hcl. reflexivity.
    + set (w' := step w (Frame 0 t CompleteNoResult)).
      assert (Hs' : streams w' = [set_closed (set_isCompleted (set_hasReceivedData s))]
                    /\ isThinking (host w') = true
                    /\ messages (host w') = messages (host w)).
      { subst w'. simpl. rewrite Hs. simpl. rewrite Hcl. simpl. rewrite ?Hs. simpl. auto. }
      destruct Hs' as (Hs' & Ht' & Hm').
      assert (F' : finished (set_closed (set_isCompleted (set_hasReceivedData s))) = true).
      { unfold finished, pending. simpl. rewrite Hfb. reflexivity. }
      split; [eexists; split; [exact Hs'|exact F']|].
      split; [exact Hm'|].
      assert (C' : consistent (set_closed (set_isCompleted (set_hasReceivedData s))) = true).
      { unfold consistent, asked. simpl. rewrite Hfb. reflexivity. }
      destruct (single_run es' w' _ Hs' C' Hall') as (s2 & _ & _ & _ & B & _).
      destruct (B F') as [_ T]. congruence.
    + intros Hd. simpl. rewrite Hs. simpl. rewrite Hcl.
      unfold onerror. simpl. rewrite Hd, Hcmp. simpl. rewrite ?Hs. simpl.
      split; [reflexivity|]. eexists. split; [reflexivity|].
      unfold finished, pending. simpl. rewrite Hfb. reflexivity.
    + intros Hd. simpl. rewrite Hs. simpl. rewrite Hcl.
      unfold onerror. simpl. rewrite Hd, Hcmp. simpl. rewrite ?Hs. simpl.
      split; [exact Hlive|]. eexists. split; [reflexivity|]. reflexivity.
  - intros Hp t r.
    assert (Hcl : closed s = true).
    { destruct s as [qu lo cl hrd cmp acc fb]; simpl in Hp; subst fb.
      unfold consistent, asked in Hc; simpl in Hc.
      destruct cl; [reflexivity|]. rewrite andb_false_r in Hc. discriminate Hc. }
    simpl. rewrite Hs. simpl. rewrite Hp. simpl. rewrite ?Hs. simpl.
    split; [reflexivity|]. eexists. split; [reflexivity|].
    unfold finished, pending. simpl. rewrite Hcl. reflexivity.
Qed.

Lemma thinking_until_finished_witness :
  let w := run (handleSend 10 "q" mounted) [Frame 0 20 (Chunk "x"); Typed "y"] in
  isThinking (host w) = true
  /\ isThinking (host (step w (Frame 0 30 (ErrorEvent "busy")))) = false
  /\ isThinking (host (run (step w (Frame 0 30 CompleteNoResult))
                        [Failure 0; Timer true; Response 0 40 None])) = true.
Proof.
  cbv zeta.
  destruct (thinking_until_finished (host mounted) [] 10 "q"
              [Frame 0 20 (Chunk "x"); Typed "y"]
              [Failure 0; Timer true; Response 0 40 None]
              eq_refl eq_refl eq_refl)
    as (_ & s & Hs & H1 & _ & H2 & _).
  vm_compute in Hs. injection Hs as <-.
  split; [exact (H1 eq_refl)|].
  destruct (H2 eq_refl 30) as (_ & He & _ & Hn & _).
  split; [exact (proj1 (He "busy"))|exact (proj2 (proj2 Hn))].
Defined.

(** ** What is sent with a question *)

(** X6. The request of the stream always carries the submitted text; it
    never carries an empty parameter, and it carries a province or a
    district only together with a city. *)
Theorem stream_request_parameters (text : string) (loc : option Location) :
  exists c p d,
    streamUrl text loc = StreamQuery text c p d
    /\ c <> Some "" /\ p <> Some "" /\ d <> Some ""
    /\ (c = None -> p = None /\ d = None)
    /\ (loc = None -> c = None).
Proof.
  assert (Ht : forall x, truthy x <> Some "").
  { intros [[|a x]|]; simpl; discriminate. }
  unfold streamUrl. destruct loc as [l|].
  - destruct (truthy (city l)) as [c|] eqn:Hc.
    + exists (Some c), (truthy (province l)), (truthy (district l)).
      split; [reflexivity|]. split; [rewrite <- Hc; apply Ht|].
      split; [apply Ht|]. split; [apply Ht|]. split; discriminate.
    + exists None, None, None. repeat split; discriminate.
  - exists None, None, None. repeat split; discriminate.
Qed.

(** X7. Whatever the browser answers about the position (no geolocation,
    a refusal, or coordinates), a question submitted afterwards is sent
    with the city 济南市 and the province 山东省 and no district, and its
    fallback would carry that same location. *)
Theorem located_in_jinan (g : Geolocation) (w : World) (now : Z) (text : string) :
  blank text = false ->
  let w1 := step (step w (Located (locate g))) (Submit now (Some text)) in
  network w1
  = (network w ++ [StreamQuery text (Some "济南市") (Some "山东省") None])%list
  /\ streams w1 !! length (streams w) = Some (open_stream text (Some (locate g)))
  /\ (onerror (host w1, open_stream text (Some (locate g)))).2
     = Some (PostQuery text true (Some (locate g))).
Proof.
  intros Hb. simpl. unfold handleSend. rewrite Hb. simpl.
  split; [destruct g; reflexivity|].
  split; [apply list_lookup_middle; reflexivity|reflexivity].
Qed.

Lemma located_in_jinan_witness :
  network (step (step mounted (Located (locate Refused))) (Submit 10 (Some "q")))
  = [StreamQuery "q" (Some "济南市") (Some "山东省") None].
Proof.
  exact (proj1 (located_in_jinan Refused mounted 10 "q" eq_refl)).
Defined.

(** ** Which texts are submitted *)




Lemma blank_cons (c : ascii) (s1 : string) :
  blank (String c s1) =
  (if ascii_space c then blank s1
    else if unit_is c 194 then                   (* U+00A0 *)
      match s1 with
      | String d s2 => unit_is d 160 && blank s2
      | _ => false
      end
    else if unit_is c 225 then                   (* U+1680 *)
      match s1 with
      | String d (String e s3) => unit_is d 154 && unit_is e 128 && blank s3
      | _ => false
      end
    else if unit_is c 226 then    (* U+2000..200A, 2028, 2029, 202F, 205F *)
      match s1 with
      | String d (String e s3) =>
        let n := nat_of_ascii e in
        ((unit_is d 128 &&
          (((128 <=? n)%nat && (n <=? 138)%nat)
           || (n =? 168)%nat || (n =? 169)%nat || (n =? 175)%nat))
         || (unit_is d 129 && (n =? 159)%nat))
        && blank s3
      | _ => false
      end
    else if unit_is c 227 then                   (* U+3000 *)
      match s1 with
      | String d (String e s3) => unit_is d 128 && unit_is e 128 && blank s3
      | _ => false
      end
    else if unit_is c 239 then                   (* U+FEFF *)
      match s1 with
      | String d (String e s3) => unit_is d 187 && unit_is e 191 && blank s3
      | _ => false
      end
    else false).
Proof. reflexivity. Qed.





(** ** The typewriter, further *)

Lemma tick_keeps_page (eager : bool) (h : Host) :
  messages (tick eager h) = messages h
  /\ input (tick eager h) = input h
  /\ isThinking (tick eager h) = isThinking h
  /\ userLocation (tick eager h) = userLocation h.
Proof.
  unfold tick. destruct (typingInterval h); [|auto].
  unfold interval_callback. destruct (_ <? _)%nat; [destruct eager|]; auto.
Qed.

Lemma ticks_keep_page (eagers : list bool) (h : Host) :
  messages (ticks eagers h) = messages h
  /\ input (ticks eagers h) = input h
  /\ isThinking (ticks eagers h) = isThinking h
  /\ userLocation (ticks eagers h) = userLocation h.
Proof.
  revert h. induction eagers as [|e es IH]; intros h; [auto|].
  change (ticks (e :: es) h) with (ticks es (tick e h)).
  destruct (IH (tick e h)) as (H1 & H2 & H3 & H4).
  destruct (tick_keeps_page e h) as (K1 & K2 & K3 & K4).
  repeat split; congruence.
Qed.

Lemma restart_after_ticks (m1 m2 : string) (eagers : list bool) (h : Host) :
  typeMessage m2 (ticks eagers (typeMessage m1 h)) = typeMessage m2 h
  /\ clearTyping (ticks eagers (typeMessage m1 h)) = clearTyping h.
Proof.
  destruct (ticks_keep_page eagers (typeMessage m1 h)) as (H1 & H2 & H3 & H4).
  simpl in H1, H2, H3, H4.
  destruct (ticks eagers (typeMessage m1 h)), h; simpl in *; subst. auto.
Qed.

(** X9. The typewriter writes its own buffer only: however many periods
    run, and however React applies the updater, the transcript, the
    input, the thinking indicator and the location stay as they were (a
    text that was typed out is not added to the transcript).  Starting a
    text, or clearing, after any such run gives the same state as doing
    so at once: a new start supersedes the earlier one entirely. *)
Theorem typewriter_is_self_contained
  (m1 m2 : string) (eagers : list bool) (h : Host) :
  let h' := ticks eagers (typeMessage m1 h) in
  messages h' = messages h
  /\ input h' = input h
  /\ isThinking h' = isThinking h
  /\ userLocation h' = userLocation h
  /\ typeMessage m2 h' = typeMessage m2 h
  /\ clearTyping h' = clearTyping h.
Proof.
  cbv zeta.
  destruct (ticks_keep_page eagers (typeMessage m1 h)) as (H1 & H2 & H3 & H4).
  simpl in H1, H2, H3, H4.
  repeat (split; [assumption|]).
  apply restart_after_ticks.
Qed.

Lemma iter_tick_ticks (eager : bool) (k : nat) (h : Host) :
  Nat.iter k (tick eager) h = ticks (repeat eager k) h.
Proof.
  revert h. induction k as [|k IH]; intros h; [reflexivity|].
  rewrite Nat.iter_succ_r, IH. reflexivity.
Qed.

(** X10. When React applies the updater inside the setter, the buffer
    holds the first [k] code units of the text after [k] periods, with
    the typing flag on and the interval live; after as many periods as
    the text has units it holds them all, which for a text of the Basic
    Multilingual Plane is the text; the next period clears the buffer,
    the flag, the index and the interval, and every later period changes
    nothing. *)
Theorem typewriter_eager_lifecycle
  (message : string) (h : Host) (k : nat) (later : list bool) :
  let L := length (code_units message) in
  let after n := Nat.iter n (tick true) (typeMessage message h) in
  ((k <= L)%nat ->
   typingMessage (after k) = cat (take k (code_units message))
   /\ typingIndex (after k) = k
   /\ isTyping (after k) = true
   /\ typingInterval (after k) = Some message)
  /\ typingMessage (after L) = cat (code_units message)
  /\ (bmp message = true -> typingMessage (after L) = message)
  /\ tick true (after L) = clearTyping h
  /\ ticks later (tick true (after L)) = clearTyping h.
Proof.
  cbv zeta.
  split.
  { intros Hk. destruct (typeMessage_eager message h k Hk) as (Hm & Hi & Ht & Hy).
    auto. }
  destruct (typeMessage_eager message h (length (code_units message)) (le_n _))
    as (Hm & Hi & Ht & _).
  rewrite firstn_all in Hm.
  set (shown := Nat.iter (length (code_units message)) (tick true) (typeMessage message h)) in *.
  split; [exact Hm|].
  split; [intros Hb; rewrite Hm; apply code_units_bmp, Hb|].
  assert (He : tick true shown = clearTyping h).
  { rewrite (tick_at_end true message shown Ht Hi).
    subst shown. rewrite iter_tick_ticks.
    apply (restart_after_ticks message message). }
  split; [exact He|].
  rewrite He. induction later as [|e later IH]; [reflexivity|].
  change (ticks (e :: later) (clearTyping h)) with (ticks later (tick e (clearTyping h))).
  rewrite tick_idle by reflexivity. exact IH.
Qed.

Lemma typewriter_eager_lifecycle_witness :
  let after n := Nat.iter n (tick true) (typeMessage "中a" (host mounted)) in
  typingMessage (after 1%nat) = "中"
  /\ typingMessage (after 2%nat) = "中a"
  /\ tick true (after 2%nat) = clearTyping (host mounted).
Proof.
  cbv zeta.
  destruct (typewriter_eager_lifecycle "中a" (host mounted) 1 []) as (H1 & _ & H2 & H3 & _).
  split; [exact (proj1 (H1 ltac:(vm_compute; lia)))|].
  split; [exact (H2 eq_refl)|exact H3].
Defined.

(** X22. When React applies the updater while it renders, after the
    callback has incremented the index, the typewriter never shows the
    first code unit of the text: after [k] periods the buffer holds the
    [k] units that follow the first, as far as there are any, and after
    as many periods as the text has units it holds all but the first;
    the next period clears the buffer, the flag, the index and the
    interval. *)
Theorem typewriter_deferred_skips_first_unit
  (message : string) (h : Host) (k : nat) :
  let L := length (code_units message) in
  let after n := Nat.iter n (tick false) (typeMessage message h) in
  ((k <= L)%nat ->
   typingMessage (after k) = cat (take k (drop 1 (code_units message)))
   /\ typingIndex (after k) = k
   /\ typingInterval (after k) = Some message)
  /\ typingMessage (after L) = cat (drop 1 (code_units message))
  /\ tick false (after L) = clearTyping h.
Proof.
  cbv zeta. split; [apply typeMessage_deferred|].
  destruct (typeMessage_deferred_end message h) as (Hm & Hi).
  destruct (typeMessage_deferred message h (length (code_units message)) (le_n _))
    as (_ & _ & Ht).
  split; [exact Hm|].
  rewrite (tick_at_end false message _ Ht Hi), iter_tick_ticks.
  apply (restart_after_ticks message message).
Qed.

Lemma typewriter_deferred_skips_first_unit_witness :
  let after n := Nat.iter n (tick false) (typeMessage "中a" (host mounted)) in
  typingMessage (after 1%nat) = "a"
  /\ typingMessage (after 2%nat) = "a"
  /\ tick false (after 2%nat) = clearTyping (host mounted).
Proof.
  cbv zeta.
  destruct (typewriter_deferred_skips_first_unit "中a" (host mounted) 1) as (H1 & H2 & H3).
  split; [exact (proj1 (H1 ltac:(vm_compute; lia)))|].
  split; [exact H2|exact H3].
Defined.

(** ** The calculator *)

Section Plans.

Import Calculator.

(** The price and the subsidy of a unit, for every tag. *)
Lemma tag_values (tag : string) :
  In (price_of tag, subsidy_of tag)
     [(3000, 600); (2000, 300); (2500, 375); (5000, 750); (1500, 225); (3000, 450)].
Proof.
  unfold subsidy_of, price_of, rate_of, PRICES, RATES, property.
  repeat destruct (String.eqb _ tag); vm_compute; tauto.
Qed.

Lemma tag_bounds (tag : string) :
  1500 <= price_of tag <= 5000 /\ 0 < subsidy_of tag /\ 5 * subsidy_of tag <= price_of tag.
Proof.
  pose proof (tag_values tag) as H. simpl in H.
  repeat (destruct H as [H|H]; [injection H as <- <-; lia|]). destruct H.
Qed.

Lemma units_bounds (budget spend price : Z) :
  0 < price ->
  let n := units budget spend price in
  0 <= n
  /\ budget - (spend + n * price) < price
  /\ (spend <= budget -> spend + n * price <= budget)
  /\ (0 < n -> spend + price <= budget).
Proof.
  intros Hp n. subst n. unfold units.
  pose proof (Z.div_mod (budget - spend) price ltac:(lia)) as E.
  pose proof (Z.mod_pos_bound (budget - spend) price Hp) as B.
  nia.
Qed.

Lemma buy_spec (fuel : nat) :
  forall budget price sub count spend totalSub,
    0 < price ->
    units budget spend price <= Z.of_nat fuel ->
    buy fuel budget price sub (count, spend, totalSub)
    = (count + units budget spend price,
       spend + units budget spend price * price,
       totalSub + units budget spend price * sub).
Proof.
  induction fuel as [|fuel IH]; intros budget p sub c sp ts Hp Hn.
  - pose proof (units_bounds budget sp p Hp) as (H0 & _).
    assert (units budget sp p = 0) as -> by lia.
    simpl. f_equal; [f_equal|]; lia.
  - simpl. destruct (Z.leb_spec (sp + p) budget) as [Hle|Hgt].
    + assert (Hu : units budget (sp + p) p = units budget sp p - 1).
      { unfold units.
        replace (budget - (sp + p)) with (budget - sp + (-1) * p) by lia.
        rewrite Z.div_add by lia.
        assert (1 <= (budget - sp) / p) by (apply Z.div_le_lower_bound; lia).
        lia. }
      rewrite IH by lia. rewrite Hu. f_equal; [f_equal|]; lia.
    + assert (units budget sp p = 0) as ->.
      { unfold units.
        assert ((budget - sp) / p < 1) by (apply Z.div_lt_upper_bound; lia).
        lia. }
      f_equal; [f_equal|]; lia.
Qed.

(** The body of the [for] loop in closed form: the rounds given to the
    [while] loop are enough. *)
Lemma plan_tag_spec (budget : Z) (l : list Item) (spend totalSub : Z) (tag : string) :
  0 <= spend ->
  let n := units budget spend (price_of tag) in
  plan_tag budget (l, spend, totalSub) tag
  = (if 0 <? n then (l ++ [mkItem tag n (price_of tag) (subsidy_of tag)])%list else l,
     spend + n * price_of tag,
     totalSub + n * subsidy_of tag).
Proof.
  intros Hs n. subst n. unfold plan_tag.
  pose proof (tag_bounds tag) as (Hp & _).
  rewrite buy_spec; [reflexivity|lia|].
  unfold units.
  destruct (Z.le_gt_cases 0 (budget - spend)) as [H|H].
  - assert ((budget - spend) / price_of tag <= budget - spend)
      by (apply Z.div_le_upper_bound; nia).
    lia.
  - assert ((budget - spend) / price_of tag < 0)
      by (apply Z.div_lt_upper_bound; lia).
    lia.
Qed.

Lemma cost_app (l1 l2 : list Item) : cost (l1 ++ l2) = cost l1 + cost l2.
Proof. induction l1 as [|i l1 IH]; simpl; [reflexivity|]. unfold cost in *. simpl. lia. Qed.

Lemma aid_app (l1 l2 : list Item) : aid (l1 ++ l2) = aid l1 + aid l2.
Proof. induction l1 as [|i l1 IH]; simpl; [reflexivity|]. unfold aid in *. simpl. lia. Qed.

Lemma items_totals (l : list Item) :
  Forall item_ok l -> 0 <= aid l /\ 5 * aid l <= cost l /\ (l <> [] -> 0 < aid l).
Proof.
  induction 1 as [|i r (Hc & Hp & Hs) _ IH]; [split; [|split]; simpl; try lia; congruence|].
  pose proof (tag_bounds (name i)) as (Hb & Hs0 & Hs5).
  unfold aid, cost in *. simpl. rewrite Hp, Hs.
  split; [nia|]. split; [nia|]. intros _. nia.
Qed.

(** What the [for] loop keeps. *)
Lemma fold_plan (budget : Z) (tags : list string) :
  forall (l : list Item) (spend totalSub : Z),
    0 <= spend ->
    exists added spend' totalSub',
      foldl (plan_tag budget) (l, spend, totalSub) tags = ((l ++ added)%list, spend', totalSub')
      /\ spend' = spend + cost added
      /\ totalSub' = totalSub + aid added
      /\ Forall item_ok added
      /\ map name added `sublist_of` tags
      /\ (spend <= budget -> spend' <= budget)
      /\ (forall t, In t tags -> budget - spend' < price_of t).
Proof.
  induction tags as [|tag tags IH]; intros l spend totalSub Hs.
  - exists [], spend, totalSub. simpl. rewrite app_nil_r.
    repeat split; try lia; try constructor; try contradiction.
  - change (foldl (plan_tag budget) (l, spend, totalSub) (tag :: tags))
      with (foldl (plan_tag budget) (plan_tag budget (l, spend, totalSub) tag) tags).
    rewrite plan_tag_spec by assumption.
    pose proof (tag_bounds tag) as (Hp & Hsub0 & Hsub).
    pose proof (units_bounds budget spend (price_of tag) ltac:(lia)) as (Hn0 & Hlt & Hle & Hfit).
    set (n := units budget spend (price_of tag)) in *.
    set (spend1 := spend + n * price_of tag) in *.
    assert (Hs1 : 0 <= spend1) by (subst spend1; nia).
    destruct (Z.ltb_spec 0 n) as [Hpos|Hzero].
    + destruct (IH (l ++ [mkItem tag n (price_of tag) (subsidy_of tag)])%list
                  spend1 (totalSub + n * subsidy_of tag) Hs1)
        as (added & spend' & totalSub' & Hf & Hc & Ha & Hok & Hsl & Hb & Hex).
      pose proof (items_totals added Hok) as (Ha0 & Ha5 & _).
      exists (mkItem tag n (price_of tag) (subsidy_of tag) :: added), spend', totalSub'.
      rewrite Hf, <- app_assoc. simpl.
      split; [reflexivity|].
      split; [unfold cost in *; simpl; subst spend1; lia|].
      split; [unfold aid in *; simpl; lia|].
      split; [constructor; [repeat split; simpl; lia|exact Hok]|].
      split; [apply sublist_skip, Hsl|].
      split; [intros; apply Hb; subst spend1; lia|].
      intros t [<-|Ht]; [lia|apply Hex, Ht].
    + assert (n = 0) as Hn by lia.
      assert (spend1 = spend) as E1 by (subst spend1; lia).
      destruct (IH l spend1 (totalSub + n * subsidy_of tag) Hs1)
        as (added & spend' & totalSub' & Hf & Hc & Ha & Hok & Hsl & Hb & Hex).
      pose proof (items_totals added Hok) as (Ha0 & Ha5 & _).
      exists added, spend', totalSub'.
      split; [exact Hf|].
      split; [lia|]. split; [lia|]. split; [exact Hok|].
      split; [apply sublist_cons, Hsl|].
      split; [intros; apply Hb; lia|].
      intros t [<-|Ht]; [lia|apply Hex, Ht].
Qed.

(** [buildPlan] in terms of what the loop leaves. *)
Lemma buildPlan_spec (selectedTags : list string) (budget : Z) :
  let p := buildPlan selectedTags budget in
  Forall item_ok (items p)
  /\ map name (items p) `sublist_of` TAGS selectedTags
  /\ total_subsidy p = aid (items p)
  /\ net_spend p = cost (items p) - aid (items p)
  /\ (0 <= budget -> cost (items p) <= budget)
  /\ (forall t, In t (TAGS selectedTags) -> budget - cost (items p) < price_of t)
  /\ utilization p = (if 0 <? cost (items p)
                      then (of_Z (cost (items p)) / of_Z budget)%float else 0%float).
Proof.
  cbv zeta. unfold buildPlan. fold (TAGS selectedTags).
  destruct (fold_plan budget (TAGS selectedTags) [] 0 0 (Z.le_refl 0))
    as (added & spend' & totalSub' & Hf & Hc & Ha & Hok & Hsl & Hb & Hex).
  rewrite Hf. simpl in *.
  pose proof (items_totals added Hok) as (Ha0 & Ha5 & _).
  subst spend' totalSub'. simpl.
  repeat split; try assumption; try lia.
Qed.

(** X11. The plan never spends more than the budget; the total subsidy
    and the net spend it reports are those of its items (units times the
    subsidy of a unit, and cost less subsidy), the net spend is never
    negative and the subsidy is at most a fifth of the cost. *)
Theorem plan_within_budget (selectedTags : list string) (budget : Z) :
  0 <= budget ->
  let p := buildPlan selectedTags budget in
  cost (items p) <= budget
  /\ total_subsidy p = aid (items p)
  /\ net_spend p = cost (items p) - total_subsidy p
  /\ 0 <= net_spend p
  /\ 0 <= total_subsidy p /\ 5 * total_subsidy p <= cost (items p).
Proof.
  intros Hb p.
  destruct (buildPlan_spec selectedTags budget) as (Hok & _ & Ht & Hn & Hc & _).
  fold p in Hok, Ht, Hn, Hc.
  pose proof (items_totals _ Hok) as (Ha0 & Ha5 & _).
  specialize (Hc Hb). rewrite Ht, Hn. repeat split; lia.
Qed.

Lemma plan_within_budget_witness :
  cost (items (buildPlan ["洗衣机"; "热水器"] 15000)) <= 15000.
Proof.
  exact (proj1 (plan_within_budget ["洗衣机"; "热水器"] 15000 ltac:(lia))).
Defined.

(** X12. The plan is greedy to the end: of no tag it was asked for does
    one more unit fit in what it leaves of the budget. *)
Theorem plan_exhausts_budget (selectedTags : list string) (budget : Z) (tag : string) :
  In tag (TAGS selectedTags) ->
  budget - cost (items (buildPlan selectedTags budget)) < price_of tag.
Proof.
  intros Ht.
  destruct (buildPlan_spec selectedTags budget) as (_ & _ & _ & _ & _ & Hex & _).
  apply Hex, Ht.
Qed.

Lemma plan_exhausts_budget_witness :
  15000 - cost (items (buildPlan ["洗衣机"; "热水器"] 15000)) < price_of "热水器".
Proof.
  apply (plan_exhausts_budget ["洗衣机"; "热水器"] 15000 "热水器").
  simpl. auto.
Defined.

(** The price and the subsidy of a unit, button by button. *)
Lemma button_values (tag : string) :
  In tag buttons ->
  In (tag, price_of tag, subsidy_of tag)
     [("一级能效空调", 3000, 600); ("冰箱", 3000, 600); ("洗衣机", 2000, 300);
      ("电视", 2500, 375); ("笔记本电脑", 5000, 750); ("热水器", 1500, 225)].
Proof.
  intros H. simpl in H.
  repeat (destruct H as [<-|H]; [vm_compute; tauto|]). destruct H.
Qed.

Lemma TAGS_buttons (selectedTags : list string) :
  Forall (fun tag => In tag buttons) selectedTags ->
  Forall (fun tag => In tag buttons) (TAGS selectedTags).
Proof.
  intros H. destruct selectedTags as [|t l]; [|exact H].
  repeat constructor; simpl; tauto.
Qed.

(** X13. For a selection made with the six buttons, the items of the plan
    follow the order of the tags, each tag at most as often as it was
    asked for; every item has at least one unit, its name is one of the
    six, and the price and the subsidy of a unit are those of that name:
    3000 and 600 for 一级能效空调 and for 冰箱, 2000 and 300 for 洗衣机,
    2500 and 375 for 电视, 5000 and 750 for 笔记本电脑, 1500 and 225 for
    热水器. *)
Theorem plan_items_shape (selectedTags : list string) (budget : Z) :
  Forall (fun tag => In tag buttons) selectedTags ->
  let p := buildPlan selectedTags budget in
  map name (items p) `sublist_of` TAGS selectedTags
  /\ Forall (fun i =>
               1 <= count i
               /\ In (name i, price i, subsidy i)
                     [("一级能效空调", 3000, 600); ("冰箱", 3000, 600);
                      ("洗衣机", 2000, 300); ("电视", 2500, 375);
                      ("笔记本电脑", 5000, 750); ("热水器", 1500, 225)])
            (items p).
Proof.
  intros Hsel. cbv zeta.
  destruct (buildPlan_spec selectedTags budget) as (Hok & Hsl & _).
  split; [exact Hsl|].
  pose proof (TAGS_buttons selectedTags Hsel) as Htags.
  rewrite List.Forall_forall in Hok. rewrite List.Forall_forall in Htags.
  apply List.Forall_forall.
  intros i Hi. destruct (Hok i Hi) as (Hc & Hp & Hs). split; [exact Hc|].
  rewrite Hp, Hs. apply button_values, Htags.
  apply list_elem_of_In, (sublist_subseteq _ _ Hsl), list_elem_of_In.
  apply in_map, Hi.
Qed.

Lemma plan_items_shape_witness :
  Forall (fun i =>
            1 <= count i
            /\ In (name i, price i, subsidy i)
                  [("一级能效空调", 3000, 600); ("冰箱", 3000, 600);
                   ("洗衣机", 2000, 300); ("电视", 2500, 375);
                   ("笔记本电脑", 5000, 750); ("热水器", 1500, 225)])
         (items (buildPlan ["笔记本电脑"; "洗衣机"; "热水器"] 8500)).
Proof.
  apply (plan_items_shape ["笔记本电脑"; "洗衣机"; "热水器"] 8500).
  repeat constructor; simpl; tauto.
Defined.

End Plans.

Section Selections.

Import Calculator.

Lemma units_none (budget spend price : Z) :
  0 < price -> budget - spend < price -> units budget spend price = 0.
Proof.
  intros Hp Hlt. unfold units.
  assert ((budget - spend) / price < 1) by (apply Z.div_lt_upper_bound; lia).
  lia.
Qed.

Lemma sublist_not_In (l k : list string) (x : string) :
  l `sublist_of` k -> ~ In x k -> ~ In x l.
Proof.
  intros Hs Hk Hl. apply Hk.
  apply list_elem_of_In. apply (sublist_subseteq _ _ Hs).
  apply list_elem_of_In, Hl.
Qed.

(** X14. A tag that comes after a tag of the same or a lower price gets
    nothing: it is not among the items of the plan (what the earlier tag
    leaves is less than its own price). *)
Theorem plan_skips_later_dearer_tag
  (selectedTags before after : list string) (cheap dear : string) (budget : Z) :
  TAGS selectedTags = (before ++ dear :: after)%list ->
  In cheap before ->
  price_of cheap <= price_of dear ->
  ~ In dear before ->
  ~ In dear after ->
  ~ In dear (map name (items (buildPlan selectedTags budget))).
Proof.
  intros Htags Hin Hle Hb Ha.
  unfold buildPlan. fold (TAGS selectedTags). rewrite Htags, foldl_app.
  destruct (fold_plan budget before [] 0 0 (Z.le_refl 0))
    as (l1 & s1 & t1 & Hf1 & Hc1 & _ & Hok1 & Hsl1 & _ & Hex1).
  simpl in Hf1. rewrite Hf1.
  change (foldl (plan_tag budget) (l1, s1, t1) (dear :: after))
    with (foldl (plan_tag budget) (plan_tag budget (l1, s1, t1) dear) after).
  pose proof (items_totals l1 Hok1) as (_ & Hc5 & _).
  assert (Hs1 : 0 <= s1).
  { rewrite Hc1. pose proof (items_totals l1 Hok1). lia. }
  rewrite plan_tag_spec by exact Hs1.
  pose proof (tag_bounds dear) as (Hp & _).
  rewrite (units_none budget s1 (price_of dear)) by (specialize (Hex1 cheap Hin); lia).
  rewrite Z.ltb_irrefl, !Z.mul_0_l, !Z.add_0_r.
  destruct (fold_plan budget after l1 s1 t1 Hs1)
    as (l2 & s2 & t2 & Hf2 & _ & _ & _ & Hsl2 & _).
  rewrite Hf2. simpl. rewrite map_app. intros Hd.
  apply in_app_or in Hd as [Hd|Hd].
  - exact (sublist_not_In _ _ _ Hsl1 Hb Hd).
  - exact (sublist_not_In _ _ _ Hsl2 Ha Hd).
Qed.

Lemma plan_skips_later_dearer_tag_witness :
  ~ In "电视" (map name (items (buildPlan ["洗衣机"; "电视"] 50000))).
Proof.
  apply (plan_skips_later_dearer_tag ["洗衣机"; "电视"] ["洗衣机"] [] "洗衣机" "电视" 50000).
  - reflexivity.
  - simpl. auto.
  - vm_compute. discriminate.
  - simpl. intros [H|[]]. discriminate H.
  - simpl. tauto.
Defined.

(** X15. With no category selected the plan is made of air conditioners
    only, as many as the budget pays at 3000 each, with a subsidy of 600
    each; the refrigerator of the default list is never bought.  Below
    3000 the plan is empty. *)
Theorem default_plan (budget : Z) :
  let n := Z.max 0 (budget / 3000) in
  let p := buildPlan [] budget in
  items p = (if 0 <? n then [mkItem "一级能效空调" n 3000 600] else [])
  /\ total_subsidy p = 600 * n
  /\ net_spend p = 2400 * n.
Proof.
  cbv zeta. unfold buildPlan, default_tags.
  change (foldl (plan_tag budget) ([], 0, 0) ["一级能效空调"; "冰箱"])
    with (plan_tag budget (plan_tag budget ([], 0, 0) "一级能效空调") "冰箱").
  rewrite plan_tag_spec by lia.
  change (price_of "一级能效空调") with 3000.
  change (subsidy_of "一级能效空调") with 600.
  assert (Hu : units budget 0 3000 = Z.max 0 (budget / 3000)).
  { unfold units. rewrite Z.sub_0_r. reflexivity. }
  rewrite Hu. set (n := Z.max 0 (budget / 3000)).
  pose proof (units_bounds budget 0 3000 ltac:(lia)) as (Hn0 & Hlt & _).
  rewrite Hu in Hn0, Hlt. fold n in Hn0, Hlt.
  rewrite plan_tag_spec by lia.
  change (price_of "冰箱") with 3000.
  rewrite (units_none budget (0 + n * 3000) 3000) by lia.
  simpl (0 <? 0). cbv iota. simpl.
  split; [destruct (0 <? n); reflexivity|]. split; lia.
Qed.

(** X16. A click on a category button flips that category and no other:
    afterwards the tag is selected exactly when it was not before, the
    membership of every other tag is unchanged, and a selection without
    repetition stays without repetition. *)
Theorem toggle_flips (tag : string) (prev : list string) :
  (In tag (toggle tag prev) <-> ~ In tag prev)
  /\ (forall t, t <> tag -> (In t (toggle tag prev) <-> In t prev))
  /\ (List.NoDup prev -> List.NoDup (toggle tag prev)).
Proof.
  unfold toggle.
  destruct (existsb (String.eqb tag) prev) eqn:E.
  - apply existsb_exists in E as (x & Hx & Hxe).
    apply String.eqb_eq in Hxe. subst x.
    split; [|split].
    + rewrite List.filter_In, String.eqb_refl. simpl. split; [intros [_ H]; discriminate H|tauto].
    + intros t Ht. rewrite List.filter_In.
      destruct (String.eqb_spec t tag); [contradiction|]. simpl. tauto.
    + apply List.NoDup_filter.
  - assert (Hn : ~ In tag prev).
    { intros Hin.
      assert (existsb (String.eqb tag) prev = true)
        by (apply existsb_exists; exists tag; split; [exact Hin|apply String.eqb_refl]).
      congruence. }
    split; [|split].
    + split; [intros _; exact Hn|]. intros _. apply in_or_app. right. simpl. auto.
    + intros t Ht. split.
      * intros H. apply in_app_or in H as [H|[H|[]]]; [exact H|congruence].
      * intros H. apply in_or_app. left. exact H.
    + intros Hd. apply List.NoDup_app; [exact Hd|repeat constructor; simpl; tauto|].
      intros x Hx [<-|[]]. exact (Hn Hx).
Qed.

End Selections.

Section Display.

Import Calculator.

Lemma full_utilization_shown :
  forallb (fun b =>
             String.eqb (shown_utilization b (mkPlan [] 0 0 0%float plan_notes)) "100")
          slider_values = true.
Proof. vm_compute. reflexivity. Qed.

(** X17. For a budget that is not negative: the plan is empty exactly
    when no unit of any requested tag fits the budget.  For an empty plan
    the panel shows a subsidy of 0, but a net spend equal to the whole
    budget of the slider and a utilization of 100%; for a plan with
    items it shows the plan's own total subsidy and net spend. *)
Theorem plan_display (selectedTags : list string) (budget shown_budget : Z) :
  0 <= budget ->
  In shown_budget slider_values ->
  let p := buildPlan selectedTags budget in
  (items p = [] <-> forall t, In t (TAGS selectedTags) -> budget < price_of t)
  /\ (items p = [] ->
      shown_subsidy p = 0
      /\ shown_net shown_budget p = shown_budget
      /\ shown_utilization shown_budget p = "100")
  /\ (items p <> [] ->
      shown_subsidy p = total_subsidy p
      /\ shown_net shown_budget p = net_spend p
      /\ 0 < total_subsidy p /\ 0 < net_spend p).
Proof.
  intros Hb Hin p.
  destruct (buildPlan_spec selectedTags budget)
    as (Hok & Hsl & Ht & Hn & Hc & Hex & Hu).
  fold p in Hok, Hsl, Ht, Hn, Hc, Hex, Hu. specialize (Hc Hb).
  split; [split|split].
  - intros E t Htag. specialize (Hex t Htag). rewrite E in Hex. simpl in Hex. lia.
  - intros Hall. destruct (items p) as [|i r] eqn:E; [reflexivity|exfalso].
    inversion Hok as [|? ? (Hci & Hpi & _) Hr]; subst.
    assert (In (name i) (TAGS selectedTags)) as Hi.
    { apply list_elem_of_In. apply (sublist_subseteq _ _ Hsl).
      apply list_elem_of_In. simpl. auto. }
    specialize (Hall _ Hi).
    pose proof (items_totals r Hr) as (Ha0 & Ha5 & _).
    unfold cost in Hc, Ha5. simpl in Hc. fold (cost r) in Hc, Ha5.
    unfold aid in Ha0. fold (aid r) in Ha0. nia.
  - intros E. rewrite E in Ht, Hn, Hu. simpl in Ht, Hn, Hu.
    unfold shown_subsidy, shown_net, shown_utilization.
    rewrite Ht, Hn, Hu, E. simpl.
    split; [reflexivity|]. split; [lia|].
    pose proof full_utilization_shown as F.
    rewrite forallb_forall in F. specialize (F shown_budget Hin).
    apply String.eqb_eq in F. exact F.
  - intros E.
    pose proof (items_totals _ Hok) as (Ha0 & Ha5 & Hpos). specialize (Hpos E).
    unfold shown_subsidy, shown_net.
    assert ((total_subsidy p =? 0) = false) as -> by (apply Z.eqb_neq; lia).
    assert ((net_spend p =? 0) = false) as -> by (apply Z.eqb_neq; lia).
    repeat split; lia.
Qed.

Lemma plan_display_witness :
  shown_utilization 2000 (buildPlan [] 2000) = "100"
  /\ shown_net 2000 (buildPlan [] 2000) = 2000.
Proof.
  destruct (plan_display [] 2000 2000 ltac:(lia) ltac:(simpl; auto))
    as (_ & H & _).
  destruct (H eq_refl) as (_ & Hn & Hu). split; assumption.
Defined.

End Display.

(** ** The charts *)

Section ChartsProperties.

Import Charts.

(** X18. When the panel is shown, each of its three charts is shown: the
    panel needs a recommendation with at least one selected product, and
    that is enough for every chart.  The pie chart and the utilization
    chart then have a value for every label.  The price chart has three
    or four datasets, and a value for every label if and only if no
    JD prices are given or there are as many of them as products. *)
Theorem panel_shows_all_charts
  (recommendation : option Recommendation) (priceComparison : option PriceComparison) :
  VisualizationPanel recommendation priceComparison <> None ->
  exists r products bar pie line,
    recommendation = Some r
    /\ selected_products r = Some products /\ products <> []
    /\ VisualizationPanel recommendation priceComparison
       = Some (Some bar, Some pie, Some line)
    /\ labels bar = map name products /\ labels pie = map name products
    /\ aligned pie /\ aligned line
    /\ (length (datasets bar) = 3 \/ length (datasets bar) = 4)%nat
    /\ (aligned bar <->
        match priceComparison with
        | Some pc =>
          match comparisons pc with
          | Some cs => length cs = length products
          | None => True
          end
        | None => True
        end).
Proof.
  intros Hp. unfold VisualizationPanel in *.
  destruct recommendation as [r|]; [|contradiction].
  destruct (selected_products r) as [[|p ps]|] eqn:E; try contradiction.
  unfold PriceComparisonChart, SubsidyPieChart, UtilizationChart. rewrite E.
  exists r, (p :: ps). do 3 eexists.
  split; [reflexivity|]. split; [exact E|]. split; [discriminate|].
  split; [reflexivity|]. split; [reflexivity|]. split; [reflexivity|].
  split; [repeat constructor; simpl; rewrite !length_map; reflexivity|].
  split; [repeat constructor|].
  unfold aligned. cbn [datasets labels].
  destruct priceComparison as [[[cs|]]|]; simpl.
  - split; [auto|]. rewrite !Forall_cons, Forall_nil. cbn [data].
    simpl. rewrite ?length_map. split; [tauto|]. intros H. repeat split; auto.
  - split; [auto|]. rewrite !Forall_cons, Forall_nil. cbn [data].
    simpl. rewrite ?length_map. tauto.
  - split; [auto|]. rewrite !Forall_cons, Forall_nil. cbn [data].
    simpl. rewrite ?length_map. tauto.
Qed.

Lemma panel_shows_all_charts_witness :
  exists bar pie line,
    VisualizationPanel
      (Some (mkRecommendation (Some [mkProduct "冰箱" 3000%float 600%float]) 0.9%float None None None))
      None
    = Some (Some bar, Some pie, Some line).
Proof.
  destruct (panel_shows_all_charts
              (Some (mkRecommendation (Some [mkProduct "冰箱" 3000%float 600%float]) 0.9%float None None None))
              None ltac:(discriminate))
    as (r & products & bar & pie & line & _ & _ & _ & H & _).
  exists bar, pie, line. exact H.
Defined.

End ChartsProperties.

(** ** The batch consultation *)

Section Batch.

Import Policies.

Lemma trimStart_cons (c : ascii) (s1 : string) :
  trimStart (String c s1) =
  (if ascii_space c then trimStart s1
   else if unit_is c 194 then
     match s1 with
     | String d s2 => if unit_is d 160 then trimStart s2 else String c s1
     | _ => String c s1
     end
   else if unit_is c 225 then
     match s1 with
     | String d (String e s3) =>
       if unit_is d 154 && unit_is e 128 then trimStart s3 else String c s1
     | _ => String c s1
     end
   else if unit_is c 226 then
     match s1 with
     | String d (String e s3) =>
       let n := nat_of_ascii e in
       if (unit_is d 128 &&
           (((128 <=? n)%nat && (n <=? 138)%nat)
            || (n =? 168)%nat || (n =? 169)%nat || (n =? 175)%nat))
          || (unit_is d 129 && (n =? 159)%nat)
       then trimStart s3 else String c s1
     | _ => String c s1
     end
   else if unit_is c 227 then
     match s1 with
     | String d (String e s3) =>
       if unit_is d 128 && unit_is e 128 then trimStart s3 else String c s1
     | _ => String c s1
     end
   else if unit_is c 239 then
     match s1 with
     | String d (String e s3) =>
       if unit_is d 187 && unit_is e 191 then trimStart s3 else String c s1
     | _ => String c s1
     end
   else String c s1).
Proof. reflexivity. Qed.

Lemma trimEnd_cons (c : ascii) (rest : string) :
  trimEnd (String c rest)
  = if blank (String c rest) then "" else String c (trimEnd rest).
Proof. reflexivity. Qed.

(** White space at the start does not count: a blank prefix can be
    dropped without changing whether the text is blank. *)
Lemma blank_app (n : nat) :
  forall a, (String.length a <= n)%nat -> blank a = true ->
  forall b, blank (a ++ b) = blank b.
Proof.
  induction n as [|n IH]; intros a Hn Ha b.
  - destruct a; [reflexivity|simpl in Hn; lia].
  - destruct a as [|c a1]; [reflexivity|].
    simpl in Hn. rewrite blank_cons in Ha.
    change (String c a1 ++ b) with (String c (a1 ++ b)). rewrite blank_cons.
    destruct (ascii_space c); [apply IH; [lia|exact Ha]|].
    destruct (unit_is c 194).
    { destruct a1 as [|d a2]; [discriminate Ha|]. simpl in Hn.
      apply andb_true_iff in Ha as [Hd Ha].
      change (String d a2 ++ b) with (String d (a2 ++ b)).
      cbv beta iota. rewrite Hd. simpl. apply IH; [lia|exact Ha]. }
    assert (H3 : forall (P : ascii -> ascii -> bool),
               match a1 with
               | String d (String e s3) => P d e && blank s3
               | _ => false
               end = true ->
               match (a1 ++ b) with
               | String d (String e s3) => P d e && blank s3
               | _ => false
               end = blank b).
    { intros P H. destruct a1 as [|d [|e a3]]; try discriminate H. simpl in Hn.
      apply andb_true_iff in H as [Hp H].
      change (String d (String e a3) ++ b) with (String d (String e (a3 ++ b))).
      cbv beta iota. rewrite Hp. simpl. apply IH; [lia|exact H]. }
    destruct (unit_is c 225);
      [exact (H3 (fun d e => unit_is d 154 && unit_is e 128) Ha)|].
    destruct (unit_is c 226);
      [exact (H3 (fun d e =>
                    let n := nat_of_ascii e in
                    (unit_is d 128 &&
                     (((128 <=? n)%nat && (n <=? 138)%nat)
                      || (n =? 168)%nat || (n =? 169)%nat || (n =? 175)%nat))
                    || (unit_is d 129 && (n =? 159)%nat)) Ha)|].
    destruct (unit_is c 227);
      [exact (H3 (fun d e => unit_is d 128 && unit_is e 128) Ha)|].
    destruct (unit_is c 239);
      [exact (H3 (fun d e => unit_is d 187 && unit_is e 191) Ha)|].
    discriminate Ha.
Qed.

(** Of a blank text [trimStart] leaves nothing. *)
Lemma trimStart_blank (n : nat) :
  forall s, (String.length s <= n)%nat -> blank s = true -> trimStart s = "".
Proof.
  induction n as [|n IH]; intros s Hn Hs.
  - destruct s; [reflexivity|simpl in Hn; lia].
  - destruct s as [|c s1]; [reflexivity|].
    simpl in Hn. rewrite blank_cons in Hs. rewrite trimStart_cons.
    destruct (ascii_space c); [apply IH; [lia|exact Hs]|].
    destruct (unit_is c 194).
    { destruct s1 as [|d s2]; [discriminate Hs|]. simpl in Hn.
      apply andb_true_iff in Hs as [Hd Hs]. rewrite Hd. apply IH; [lia|exact Hs]. }
    assert (H3 : forall (P : ascii -> ascii -> bool),
               match s1 with
               | String d (String e s3) => P d e && blank s3
               | _ => false
               end = true ->
               match s1 with
               | String d (String e s3) =>
                 if P d e then trimStart s3 else String c s1
               | _ => String c s1
               end = "").
    { intros P H. destruct s1 as [|d [|e s3]]; try discriminate H. simpl in Hn.
      apply andb_true_iff in H as [Hp H]. rewrite Hp. apply IH; [lia|exact H]. }
    destruct (unit_is c 225);
      [exact (H3 (fun d e => unit_is d 154 && unit_is e 128) Hs)|].
    destruct (unit_is c 226);
      [exact (H3 (fun d e =>
                    let n := nat_of_ascii e in
                    (unit_is d 128 &&
                     (((128 <=? n)%nat && (n <=? 138)%nat)
                      || (n =? 168)%nat || (n =? 169)%nat || (n =? 175)%nat))
                    || (unit_is d 129 && (n =? 159)%nat)) Hs)|].
    destruct (unit_is c 227);
      [exact (H3 (fun d e => unit_is d 128 && unit_is e 128) Hs)|].
    destruct (unit_is c 239);
      [exact (H3 (fun d e => unit_is d 187 && unit_is e 191) Hs)|].
    discriminate Hs.
Qed.

Lemma trim_blank (s : string) : blank s = true -> trim s = "".
Proof.
  intros Hs. unfold trim.
  rewrite (trimStart_blank (String.length s) s (le_n _) Hs). reflexivity.
Qed.

Lemma split_from_cons (c : ascii) (rest cur : string) (b : bool) :
  split_from (String c rest) cur b
  = if is_newline c
    then if b then split_from rest "" true else cur :: split_from rest "" true
    else split_from rest (cur ++ String c "") false.
Proof. reflexivity. Qed.

Lemma split_two (c d : ascii) (rest cur : string) (b : bool) :
  is_newline c = false -> is_newline d = false ->
  split_from (String c (String d rest)) cur b
  = split_from rest (cur ++ String c (String d "")) false.
Proof.
  intros Hc Hd. rewrite !split_from_cons, Hc, Hd, append_assoc. reflexivity.
Qed.

Lemma split_three (c d e : ascii) (rest cur : string) (b : bool) :
  is_newline c = false -> is_newline d = false -> is_newline e = false ->
  split_from (String c (String d (String e rest))) cur b
  = split_from rest (cur ++ String c (String d (String e ""))) false.
Proof.
  intros Hc Hd He. rewrite !split_from_cons, Hc, Hd, He, !append_assoc. reflexivity.
Qed.

Lemma unit_not_newline (c : ascii) (k : nat) :
  unit_is c k = true -> k <> 10%nat -> is_newline c = false.
Proof.
  unfold is_newline, unit_is. intros H Hk.
  apply Nat.eqb_eq in H. apply Nat.eqb_neq. lia.
Qed.

(** A unit of code 128 or more is no line feed. *)
Lemma high_not_newline (c : ascii) :
  (128 <=? nat_of_ascii c)%nat = true -> is_newline c = false.
Proof.
  unfold is_newline, unit_is. intros H. apply Nat.leb_le in H.
  apply Nat.eqb_neq. lia.
Qed.

Lemma unit_high (c : ascii) (k : nat) :
  unit_is c k = true -> (128 <= k)%nat -> (128 <=? nat_of_ascii c)%nat = true.
Proof.
  unfold unit_is. intros H Hk. apply Nat.eqb_eq in H. apply Nat.leb_le. lia.
Qed.

(** The units of a blank text after a first unit that is not ASCII white
    space: the shapes [blank] accepts, all of units of code 128 or more. *)
Lemma blank_multibyte (c : ascii) (s1 : string) :
  ascii_space c = false ->
  blank (String c s1) = true ->
  (exists d s2,
      s1 = String d s2 /\ blank s2 = true
      /\ blank (String c (String d "")) = true
      /\ is_newline c = false /\ is_newline d = false)
  \/ (exists d e s3,
         s1 = String d (String e s3) /\ blank s3 = true
         /\ blank (String c (String d (String e ""))) = true
         /\ is_newline c = false /\ is_newline d = false /\ is_newline e = false).
Proof.
  intros Hsp H. rewrite blank_cons, Hsp in H.
  assert (Hhi : forall x k, unit_is x k = true -> (128 <= k)%nat -> is_newline x = false).
  { intros x k Hx Hk. apply high_not_newline, (unit_high x k Hx Hk). }
  destruct (unit_is c 194) eqn:E194.
  { left. destruct s1 as [|d s2]; [discriminate H|].
    apply andb_true_iff in H as [Hd Hs2].
    exists d, s2. split; [reflexivity|]. split; [exact Hs2|].
    split; [rewrite blank_cons, Hsp, E194, Hd; reflexivity|].
    split; [apply (Hhi c _ E194); lia|apply (Hhi d _ Hd); lia]. }
  right.
  destruct (unit_is c 225) eqn:E225.
  { destruct s1 as [|d [|e s3]]; try discriminate H.
    apply andb_true_iff in H as [H Hs3]. apply andb_true_iff in H as [Hd He].
    exists d, e, s3. split; [reflexivity|]. split; [exact Hs3|].
    split; [rewrite blank_cons, Hsp, E194, E225, Hd, He; reflexivity|].
    split; [apply (Hhi c _ E225); lia|].
    split; [apply (Hhi d _ Hd); lia|apply (Hhi e _ He); lia]. }
  destruct (unit_is c 226) eqn:E226.
  { destruct s1 as [|d [|e s3]]; try discriminate H.
    apply andb_true_iff in H as [H Hs3].
    exists d, e, s3. split; [reflexivity|]. split; [exact Hs3|].
    split; [rewrite blank_cons, Hsp, E194, E225, E226; cbv zeta in H |- *;
            rewrite H; reflexivity|].
    split; [apply (Hhi c _ E226); lia|].
    cbv zeta in H.
    apply orb_true_iff in H as [H|H]; apply andb_true_iff in H as [Hd He].
    - split; [apply (Hhi d _ Hd); lia|].
      apply high_not_newline.
      repeat (apply orb_true_iff in He as [He|He]);
        try (apply Nat.eqb_eq in He; apply Nat.leb_le; lia).
      apply andb_true_iff in He as [He _]. exact He.
    - split; [apply (Hhi d _ Hd); lia|].
      apply high_not_newline. apply Nat.eqb_eq in He. apply Nat.leb_le. lia. }
  destruct (unit_is c 227) eqn:E227.
  { destruct s1 as [|d [|e s3]]; try discriminate H.
    apply andb_true_iff in H as [H Hs3]. apply andb_true_iff in H as [Hd He].
    exists d, e, s3. split; [reflexivity|]. split; [exact Hs3|].
    split; [rewrite blank_cons, Hsp, E194, E225, E226, E227, Hd, He; reflexivity|].
    split; [apply (Hhi c _ E227); lia|].
    split; [apply (Hhi d _ Hd); lia|apply (Hhi e _ He); lia]. }
  destruct (unit_is c 239) eqn:E239.
  { destruct s1 as [|d [|e s3]]; try discriminate H.
    apply andb_true_iff in H as [H Hs3]. apply andb_true_iff in H as [Hd He].
    exists d, e, s3. split; [reflexivity|]. split; [exact Hs3|].
    split; [rewrite blank_cons, Hsp, E194, E225, E226, E227, E239, Hd, He; reflexivity|].
    split; [apply (Hhi c _ E239); lia|].
    split; [apply (Hhi d _ Hd); lia|apply (Hhi e _ He); lia]. }
  discriminate H.
Qed.

(** The lines of a blank text are blank. *)
Lemma split_blank (n : nat) :
  forall s, (String.length s <= n)%nat -> blank s = true ->
  forall cur b, blank cur = true ->
  Forall (fun p => blank p = true) (split_from s cur b).
Proof.
  induction n as [|n IH]; intros s Hn Hs cur b Hcur.
  - destruct s; [repeat constructor; exact Hcur|simpl in Hn; lia].
  - destruct s as [|c s1]; [repeat constructor; exact Hcur|].
    simpl in Hn.
    assert (Hgrow : forall x, blank x = true -> blank (cur ++ x) = true).
    { intros x Hx. rewrite (blank_app (String.length cur) cur (le_n _) Hcur). exact Hx. }
    destruct (ascii_space c) eqn:Hsp.
    + assert (Hs1 : blank s1 = true) by (rewrite blank_cons, Hsp in Hs; exact Hs).
      rewrite split_from_cons.
      destruct (is_newline c).
      * destruct b; [apply IH; auto; lia|].
        constructor; [exact Hcur|apply IH; auto; lia].
      * apply IH; [lia|exact Hs1|]. apply Hgrow.
        rewrite blank_cons, Hsp. reflexivity.
    + destruct (blank_multibyte c s1 Hsp Hs)
        as [(d & s2 & -> & Hs2 & Hb & Hc & Hd)
           |(d & e & s3 & -> & Hs3 & Hb & Hc & Hd & He)].
      * simpl in Hn. rewrite split_two by assumption.
        apply IH; [lia|exact Hs2|apply Hgrow, Hb].
      * simpl in Hn. rewrite split_three by assumption.
        apply IH; [lia|exact Hs3|apply Hgrow, Hb].
Qed.

(** X19. A batch input that is blank (white space and line feeds only,
    or empty) sends no request. *)
Theorem blank_batch_sends_nothing (batchInput : string) :
  blank batchInput = true -> batch_request batchInput = None.
Proof.
  intros Hb. unfold batch_request, questions, split_newlines.
  pose proof (split_blank (String.length batchInput) batchInput (le_n _) Hb
                "" false eq_refl) as Hall.
  induction Hall as [|p ps Hp _ IH]; [reflexivity|].
  simpl. rewrite (trim_blank p Hp). simpl. exact IH.
Qed.

Lemma blank_batch_sends_nothing_witness :
  batch_request ("  " ++ nl ++ "　" ++ nl) = None.
Proof.
  apply (blank_batch_sends_nothing ("  " ++ nl ++ "　" ++ nl)). reflexivity.
Defined.

Lemma no_newline_app (a b : string) :
  no_newline (a ++ b) = no_newline a && no_newline b.
Proof.
  induction a as [|c a IH]; [reflexivity|].
  change (String c a ++ b) with (String c (a ++ b)).
  cbn [no_newline]. rewrite IH, andb_assoc. reflexivity.
Qed.

Lemma split_no_newline (s : string) :
  forall cur b, no_newline cur = true ->
  Forall (fun p => no_newline p = true) (split_from s cur b).
Proof.
  induction s as [|c s IH]; intros cur b Hcur; [repeat constructor; exact Hcur|].
  rewrite split_from_cons. destruct (is_newline c) eqn:Hc.
  - destruct b; [apply IH; reflexivity|].
    constructor; [exact Hcur|apply IH; reflexivity].
  - apply IH. rewrite no_newline_app, Hcur. cbn [no_newline]. rewrite Hc. reflexivity.
Qed.

Lemma trimStart_no_newline (n : nat) :
  forall s, (String.length s <= n)%nat -> no_newline s = true ->
  no_newline (trimStart s) = true.
Proof.
  induction n as [|n IH]; intros s Hn Hs.
  - destruct s; [reflexivity|simpl in Hn; lia].
  - destruct s as [|c s1]; [reflexivity|].
    simpl in Hn. rewrite trimStart_cons.
    assert (H1 : no_newline s1 = true)
      by (cbn [no_newline] in Hs; apply andb_true_iff in Hs as [_ Hs]; exact Hs).
    assert (H2 : forall d s2, s1 = String d s2 -> no_newline s2 = true).
    { intros d s2 ->. cbn [no_newline] in H1.
      apply andb_true_iff in H1 as [_ H1]. exact H1. }
    assert (H3 : forall d e s3, s1 = String d (String e s3) -> no_newline s3 = true).
    { intros d e s3 ->. specialize (H2 d _ eq_refl). cbn [no_newline] in H2.
      apply andb_true_iff in H2 as [_ H2]. exact H2. }
    destruct (ascii_space c); [apply IH; [lia|exact H1]|].
    destruct (unit_is c 194).
    { destruct s1 as [|d s2]; [exact Hs|]. simpl in Hn.
      destruct (unit_is d 160); [apply IH; [lia|apply (H2 d s2 eq_refl)]|exact Hs]. }
    destruct (unit_is c 225).
    { destruct s1 as [|d [|e s3]]; try exact Hs. simpl in Hn.
      destruct (_ && _); [apply IH; [lia|apply (H3 d e s3 eq_refl)]|exact Hs]. }
    destruct (unit_is c 226).
    { destruct s1 as [|d [|e s3]]; try exact Hs. simpl in Hn. cbv zeta.
      destruct (_ || _); [apply IH; [lia|apply (H3 d e s3 eq_refl)]|exact Hs]. }
    destruct (unit_is c 227).
    { destruct s1 as [|d [|e s3]]; try exact Hs. simpl in Hn.
      destruct (_ && _); [apply IH; [lia|apply (H3 d e s3 eq_refl)]|exact Hs]. }
    destruct (unit_is c 239).
    { destruct s1 as [|d [|e s3]]; try exact Hs. simpl in Hn.
      destruct (_ && _); [apply IH; [lia|apply (H3 d e s3 eq_refl)]|exact Hs]. }
    exact Hs.
Qed.

Lemma trimEnd_no_newline (s : string) :
  no_newline s = true -> no_newline (trimEnd s) = true.
Proof.
  induction s as [|c s IH]; intros Hs; [reflexivity|].
  rewrite trimEnd_cons. destruct (blank (String c s)); [reflexivity|].
  cbn [no_newline] in Hs |- *. apply andb_true_iff in Hs as [Hc Hs].
  rewrite Hc, (IH Hs). reflexivity.
Qed.

(** [trimEnd] drops a blank end and nothing else. *)
Lemma trimEnd_split (s : string) :
  exists w, s = trimEnd s ++ w /\ blank w = true.
Proof.
  induction s as [|c s (w & Hw & Hb)]; [exists ""; split; reflexivity|].
  rewrite trimEnd_cons. destruct (blank (String c s)) eqn:E.
  - exists (String c s). split; [reflexivity|exact E].
  - exists w. split; [|exact Hb].
    change (String c (trimEnd s) ++ w) with (String c (trimEnd s ++ w)).
    rewrite <- Hw. reflexivity.
Qed.

Lemma trim_visible (s : string) : trim s <> "" -> blank (trim s) = false.
Proof.
  unfold trim. set (t := trimStart s). intros Hne.
  destruct (blank (trimEnd t)) eqn:E; [exfalso|reflexivity].
  destruct (trimEnd_split t) as (w & Hw & Hb).
  assert (blank t = true) as Ht.
  { rewrite Hw. rewrite (blank_app (String.length (trimEnd t)) _ (le_n _) E). exact Hb. }
  apply Hne. destruct t as [|c t']; [reflexivity|].
  rewrite trimEnd_cons, Ht. reflexivity.
Qed.

(** X20. Every question of a batch has visible text (it is not blank,
    so not empty) and holds no line feed; a request that is sent carries
    these questions, and at least one. *)
Theorem batch_questions_are_lines (batchInput : string) :
  Forall (fun q => blank q = false /\ q <> "" /\ no_newline q = true)
         (questions batchInput)
  /\ (forall qs, batch_request batchInput = Some qs ->
                 qs = questions batchInput /\ qs <> []).
Proof.
  split.
  - unfold questions, split_newlines.
    pose proof (split_no_newline batchInput "" false eq_refl) as Hall.
    induction Hall as [|p ps Hp _ IH]; [constructor|].
    simpl. destruct (nonempty (trim p)) eqn:E; [|exact IH].
    constructor; [|exact IH].
    assert (trim p <> "") as Hne by (destruct (trim p); [discriminate E|discriminate]).
    split; [apply trim_visible, Hne|]. split; [exact Hne|].
    unfold trim. apply trimEnd_no_newline.
    apply (trimStart_no_newline (String.length p) p (le_n _) Hp).
  - intros qs H. unfold batch_request in H.
    destruct (questions batchInput) as [|q r]; [discriminate H|].
    injection H as <-. split; [reflexivity|discriminate].
Qed.

Lemma split_word (q : string) :
  forall rest cur b, q <> "" -> no_newline q = true ->
  split_from (q ++ rest) cur b = split_from rest (cur ++ q) false.
Proof.
  induction q as [|c q IH]; intros rest cur b Hne Hq; [congruence|].
  cbn [no_newline] in Hq. apply andb_true_iff in Hq as [Hc Hq].
  apply negb_true_iff in Hc.
  change (String c q ++ rest) with (String c (q ++ rest)).
  rewrite split_from_cons, Hc.
  destruct q as [|d q'].
  - reflexivity.
  - rewrite IH by (discriminate || exact Hq).
    rewrite append_assoc. reflexivity.
Qed.

Lemma split_join (qs : list string) :
  forall b, qs <> [] ->
  Forall clean qs ->
  split_from (join nl qs) "" b = qs.
Proof.
  induction qs as [|q qs IH]; intros b Hne Hall; [congruence|].
  inversion Hall as [|? ? (Hq & Hn & _) Hrest]; subst.
  destruct qs as [|q' r].
  - simpl join. rewrite <- (append_nil_r q) at 1.
    rewrite split_word by assumption. reflexivity.
  - change (join nl (q :: q' :: r)) with (q ++ nl ++ join nl (q' :: r)).
    rewrite split_word by assumption.
    change (nl ++ join nl (q' :: r)) with (String (ascii_of_nat 10) (join nl (q' :: r))).
    rewrite split_from_cons.
    change (is_newline (ascii_of_nat 10)) with true. cbv iota.
    f_equal. apply IH; [discriminate|exact Hrest].
Qed.

(** X21. Round trip: clean lines (not empty, without line feed, with no
    white space at either end) joined by line feeds are sent back
    unchanged, in the same order, as the questions of the batch. *)
Theorem batch_round_trip (qs : list string) :
  qs <> [] ->
  Forall clean qs ->
  batch_request (join nl qs) = Some qs.
Proof.
  intros Hne Hall. unfold batch_request, questions, split_newlines.
  rewrite (split_join qs false Hne Hall).
  assert (E : List.filter nonempty (map trim qs) = qs).
  { clear Hne. induction Hall as [|q r (Hq & _ & Ht) _ IH]; [reflexivity|].
    simpl. rewrite Ht. destruct q; [congruence|]. simpl. rewrite IH. reflexivity. }
  rewrite E. destruct qs; [congruence|reflexivity].
Qed.

Lemma batch_round_trip_witness :
  batch_request (join nl ["空调补贴多少？"; "how to apply?"])
  = Some ["空调补贴多少？"; "how to apply?"].
Proof.
  apply (batch_round_trip ["空调补贴多少？"; "how to apply?"]).
  - discriminate.
  - repeat constructor; discriminate.
Defined.

End Batch.
